(** * People router: store mutations and index rebuilds

    A shallow embedding of the mutating handlers of
    [python/routers/people.py]: [delete_person], [verify_person_on_photo],
    [batch_verify_person_on_photos], [unlink_person_from_photo] and
    [create_person_from_cluster].

    The handlers are asynchronous Python functions that talk to two
    collaborators, [PostgresClient] and [FaceRecognitionService].  They are
    embedded as computations in a small state-and-exception monad over a
    [World] made of the two tables the handlers touch and a trace of the
    calls they issue.  The state survives an exception: every SQL statement
    is committed on its own, so what an [UPDATE] wrote stays written when a
    later call raises.

    Calls to [logger] change neither the tables, the trace nor the response
    and are left out, except for the one expression of a log message that
    can raise, the subscript [person['id']] of the two creating handlers.
    Identifiers are UUIDs carried as strings; they are taken to be well
    formed. *)

From Stdlib Require Import String List Bool Arith Lia QArith DecimalString Permutation.
Import ListNotations.
Local Open Scope nat_scope.
Local Open Scope string_scope.
Local Open Scope list_scope.

(** ** Data model *)

(** A row of [photo_faces], with the columns the statements of this router
    read or write.  [person_id] and [recognition_confidence] are nullable. *)
Record FaceRecord := mkFace {
  face_id : string;
  photo_id : string;
  person_id : option string;
  verified : bool;
  recognition_confidence : option Q
}.

(** A row of [people]. *)
Record Person := mkPerson {
  p_id : string;
  display_name : string
}.

(** The SQL literal [1.0]. *)
Definition one_point_zero : Q := 1%Q.

(** ** The UPDATE statements of the router

    All three statements have the shape
    [UPDATE photo_faces SET ... WHERE ... RETURNING id]. *)

Inductive Cond :=
| PersonIdEq (p : string)            (* person_id = $1 *)
| PhotoIdEq (ph : string)            (* photo_id = $2 *)
| PhotoIdAny (phs : list string)     (* photo_id = ANY($2::uuid[]) *)
| CAnd (a b : Cond).                 (* a AND b *)

(** The SET clause: [None] leaves the column alone, [Some v] writes [v]
    ([Some None] writes NULL into a nullable column). *)
Record Assign := mkAssign {
  set_person_id : option (option string);
  set_verified : option bool;
  set_recognition_confidence : option (option Q)
}.

Record Update := mkUpdate {
  upd_set : Assign;
  upd_where : Cond
}.

Definition mem (x : string) (l : list string) : bool :=
  existsb (String.eqb x) l.

(** A comparison with NULL is not true, so a row whose [person_id] is NULL
    never satisfies [person_id = $1]. *)
Fixpoint eval_cond (c : Cond) (r : FaceRecord) : bool :=
  match c with
  | PersonIdEq p =>
      match person_id r with
      | Some q => String.eqb q p
      | None => false
      end
  | PhotoIdEq ph => String.eqb (photo_id r) ph
  | PhotoIdAny phs => mem (photo_id r) phs
  | CAnd a b => eval_cond a r && eval_cond b r
  end.

Definition or_keep {A} (new : option A) (old : A) : A :=
  match new with
  | Some v => v
  | None => old
  end.

Definition apply_set (a : Assign) (r : FaceRecord) : FaceRecord :=
  mkFace (face_id r) (photo_id r)
         (or_keep (set_person_id a) (person_id r))
         (or_keep (set_verified a) (verified r))
         (or_keep (set_recognition_confidence a) (recognition_confidence r)).

Definition update_row (u : Update) (r : FaceRecord) : FaceRecord :=
  if eval_cond (upd_where u) r then apply_set (upd_set u) r else r.

(** The rows of [RETURNING id], in table order. *)
Definition returning_id (u : Update) (t : list FaceRecord) : list string :=
  map face_id (filter (eval_cond (upd_where u)) t).

Definition run_update (u : Update) (t : list FaceRecord)
  : list string * list FaceRecord :=
  (returning_id u t, map (update_row u) t).

(** [SET verified = true, recognition_confidence = 1.0] *)
Definition set_verified_true : Assign :=
  mkAssign None (Some true) (Some (Some one_point_zero)).

(** [SET person_id = NULL, verified = false, recognition_confidence = NULL] *)
Definition set_unlinked : Assign :=
  mkAssign (Some None) (Some false) (Some None).

(** The statement of [verify_person_on_photo]. *)
Definition verify_query (person photo : string) : Update :=
  mkUpdate set_verified_true (CAnd (PersonIdEq person) (PhotoIdEq photo)).

(** The statement of [batch_verify_person_on_photos]. *)
Definition batch_verify_query (person : string) (photos : list string) : Update :=
  mkUpdate set_verified_true (CAnd (PersonIdEq person) (PhotoIdAny photos)).

(** The statement of [unlink_person_from_photo]. *)
Definition unlink_query (person photo : string) : Update :=
  mkUpdate set_unlinked (CAnd (PersonIdEq person) (PhotoIdEq photo)).

(** ** World, environment and the handler monad *)

Inductive Event :=
| Statement (u : Update)       (* an UPDATE ran on the store *)
| RebuildIndex.                (* rebuild_players_index was called *)

Record World := mkWorld {
  photo_faces : list FaceRecord;
  people : list Person;
  trace : list Event
}.

(** What the collaborators do on a run: each field, when set, is the
    message of the exception the corresponding call raises. *)
Record Env := mkEnv {
  connect_error : option string;    (* db.connect() *)
  query_error : option string;      (* a statement sent to the store *)
  rebuild_error : option string     (* rebuild_players_index() *)
}.

Inductive exn :=
| HTTPException (status_code : nat) (detail : string)
| Exception (message : string).

Inductive outcome (A : Type) :=
| Return (a : A)
| Raise (e : exn).
Arguments Return {A} a.
Arguments Raise {A} e.

Definition M (A : Type) : Type := World -> outcome A * World.

Definition ret {A} (a : A) : M A := fun w => (Return a, w).

Definition raise {A} (e : exn) : M A := fun w => (Raise e, w).

(** A Python expression evaluated inside a handler: it yields a value or
    raises, and touches neither the tables nor the trace. *)
Definition evaluate {A} (o : outcome A) : M A := fun w => (o, w).

Definition bind {A B} (m : M A) (k : A -> M B) : M B :=
  fun w =>
    match m w with
    | (Return a, w') => k a w'
    | (Raise e, w') => (Raise e, w')
    end.

(** [try: body except e: handler e] *)
Definition try_except {A} (body : M A) (handler : exn -> M A) : M A :=
  fun w =>
    match body w with
    | (Return a, w') => (Return a, w')
    | (Raise e, w') => handler e w'
    end.

Declare Scope handler_scope.
Delimit Scope handler_scope with handler.
Notation "x <- m ;; k" := (bind m (fun x => k))
  (at level 61, m at next level, right associativity) : handler_scope.
Notation "m ;; k" := (bind m (fun _ => k))
  (at level 61, right associativity) : handler_scope.
Local Open Scope handler_scope.

(** [str(e)]: the message of a plain exception; an [HTTPException] prints
    as its status code, a colon and its detail. *)
Definition str (e : exn) : string :=
  match e with
  | Exception m => m
  | HTTPException c d => NilZero.string_of_uint (Nat.to_uint c) ++ ": " ++ d
  end.

(** [except HTTPException: raise] followed by
    [except Exception as e: raise HTTPException(status_code=500, detail=str(e))] *)
Definition reraise_http_else_500 {A} (e : exn) : M A :=
  match e with
  | HTTPException _ _ => raise e
  | Exception _ => raise (HTTPException 500 (str e))
  end.

(** [except Exception as e: raise HTTPException(status_code=500, detail=str(e))]
    alone: it catches every exception of the body. *)
Definition all_as_500 {A} (e : exn) : M A :=
  raise (HTTPException 500 (str e)).

(** JSON bodies of the successful responses. *)
#[local] Unset Elimination Schemes.
Inductive json :=
| JBool (b : bool)
| JNum (n : nat)
| JStr (s : string)
| JObj (fields : list (string * json)).
#[local] Set Elimination Schemes.

(** ** Collaborators *)

Section Handlers.

Variable env : Env.

(** [await db.connect()] *)
Definition connect : M unit :=
  fun w =>
    match connect_error env with
    | Some m => (Raise (Exception m), w)
    | None => (Return tt, w)
    end.

(** [await db.fetch(query, ...)] for one of the UPDATE statements above:
    the statement runs on [photo_faces] and the [RETURNING id] rows come
    back; when the store fails nothing is written. *)
Definition fetch (u : Update) : M (list string) :=
  fun w =>
    match query_error env with
    | Some m => (Raise (Exception m), w)
    | None =>
        let (ids, t) := run_update u (photo_faces w) in
        (Return ids, mkWorld t (people w) (trace w ++ [Statement u]))
    end.

(** Modelled from the spec: [FaceRecognitionService.rebuild_players_index],
    which the handlers reach through [face_service = FaceRecognitionService()]
    and [await face_service.rebuild_players_index()] and which is not among
    the sources of this router.  Section 4.3: a rebuild reads the verified
    descriptors, builds a new index and swaps it in, "side-effect-free
    beyond the swap", and it can fail.  So the call leaves both tables
    alone; it is recorded in the trace, it may raise, and what it returns is
    dropped by every caller. *)
Definition rebuild_players_index : M unit :=
  fun w =>
    let w' := mkWorld (photo_faces w) (people w) (trace w ++ [RebuildIndex]) in
    match rebuild_error env with
    | Some m => (Raise (Exception m), w')
    | None => (Return tt, w')
    end.

Definition has_person (p : string) (t : list Person) : bool :=
  existsb (fun q => String.eqb (p_id q) p) t.

Definition refers_to (p : string) (r : FaceRecord) : bool :=
  eval_cond (PersonIdEq p) r.

(** Modelled from the spec: the cascade of a delete on one record, section
    3: a record referencing the person is "cleared to unassigned". *)
Definition detach (p : string) (r : FaceRecord) : FaceRecord :=
  if refers_to p r then apply_set set_unlinked r else r.

(** Modelled from the spec: [PostgresClient.delete_person], which this
    router calls and which is not among its sources.  Section 4.1:
    deletePerson "fails with NotFound if absent; otherwise removes the
    Person"; section 3: the delete "cascades - every FaceRecord referencing
    it is detached (cleared to unassigned)", the variant section 9 states as
    the default.  Absence is reported by the result [false], which the
    router turns into the 404 below. *)
Definition db_delete_person (person : string) : M bool :=
  fun w =>
    match connect_error env, query_error env with
    | Some m, _ => (Raise (Exception m), w)
    | None, Some m => (Raise (Exception m), w)
    | None, None =>
        if has_person person (people w) then
          (Return true,
           mkWorld (map (detach person) (photo_faces w))
                   (filter (fun q => negb (String.eqb (p_id q) person)) (people w))
                   (trace w))
        else (Return false, w)
    end.

(** ** Handlers *)

Definition success_message (m : string) : json :=
  JObj [("success", JBool true); ("message", JStr m)].

Definition success_data (k : string) (v : json) : json :=
  JObj [("success", JBool true); ("data", JObj [(k, v)])].

(** [DELETE /api/people/{person_id}] *)
Definition delete_person (person : string) : M json :=
  try_except
    (success <- db_delete_person person ;;
     if negb success then
       raise (HTTPException 404 ("Person " ++ person ++ " not found"))
     else
       rebuild_players_index ;;
       ret (success_message ("Person " ++ person ++ " deleted")))
    reraise_http_else_500.

(** [POST /api/people/{person_id}/verify-on-photo] *)
Definition verify_person_on_photo (person photo : string) : M json :=
  try_except
    (connect ;;
     result <- fetch (verify_query person photo) ;;
     match result with
     | [] =>
         raise (HTTPException 404
                  ("Face not found for person " ++ person ++ " on photo " ++ photo))
     | _ :: _ =>
         rebuild_players_index ;;
         ret (success_data "verified" (JBool true))
     end)
    reraise_http_else_500.

(** [POST /api/people/{person_id}/batch-verify-on-photos] *)
Definition batch_verify_person_on_photos (person : string) (photo_ids : list string)
  : M json :=
  try_except
    (connect ;;
     match photo_ids with
     | [] => ret (success_data "verified_count" (JNum 0))
     | _ :: _ =>
         result <- fetch (batch_verify_query person photo_ids) ;;
         let verified_count := length result in
         (if (0 <? verified_count)%nat then rebuild_players_index else ret tt) ;;
         ret (success_data "verified_count" (JNum verified_count))
     end)
    all_as_500.

(** [POST /api/people/{person_id}/unlink-from-photo] *)
Definition unlink_person_from_photo (person photo : string) : M json :=
  try_except
    (connect ;;
     result <- fetch (unlink_query person photo) ;;
     let unlinked_count := length result in
     (if (0 <? unlinked_count)%nat then rebuild_players_index else ret tt) ;;
     ret (success_data "unlinked_count" (JNum unlinked_count)))
    all_as_500.

(** The four mutating requests whose effect on the store is known. *)
Inductive Request :=
| DeletePerson (person : string)
| VerifyOnPhoto (person photo : string)
| BatchVerify (person : string) (photo_ids : list string)
| Unlink (person photo : string).

Definition handle (req : Request) : M json :=
  match req with
  | DeletePerson p => delete_person p
  | VerifyOnPhoto p ph => verify_person_on_photo p ph
  | BatchVerify p phs => batch_verify_person_on_photos p phs
  | Unlink p ph => unlink_person_from_photo p ph
  end.

(** [POST /api/people/from-cluster].  Neither the request schema
    ([PersonFromClusterCreate], [ClusterFace]) nor the store method is among
    the sources of this router, so both are left open. *)
Section FromCluster.

Variable ClusterFace : Type.
Variable PersonRow : Type.
Variable db_create_person_from_cluster : string -> list ClusterFace -> M PersonRow.
(** [person['id']], which the log line reads inside the [try] block: the
    id, or the exception the subscript raises on what the store returned. *)
Variable person_id_of : PersonRow -> outcome string.

Definition create_person_from_cluster (person_name : string)
           (cluster_faces : list ClusterFace) : M PersonRow :=
  try_except
    (person <- db_create_person_from_cluster person_name cluster_faces ;;
     evaluate (person_id_of person) ;;
     ret person)
    all_as_500.

End FromCluster.

End Handlers.

Arguments create_person_from_cluster {ClusterFace PersonRow}.

(** ** Observations on a world *)

Definition is_rebuild (e : Event) : bool :=
  match e with
  | RebuildIndex => true
  | Statement _ => false
  end.

Definition is_statement (e : Event) : bool := negb (is_rebuild e).

(** How many times the index rebuild has been called. *)
Definition rebuild_calls (w : World) : nat :=
  length (filter is_rebuild (trace w)).

(** How many UPDATE statements have run. *)
Definition statements (w : World) : nat :=
  length (filter is_statement (trace w)).

Definition is_success {A} (o : outcome A) : bool :=
  match o with
  | Return _ => true
  | Raise _ => false
  end.

(** The face record of [person] on [photo]: the rows the single-photo
    statements address. *)
Definition linked (person photo : string) (r : FaceRecord) : Prop :=
  person_id r = Some person /\ photo_id r = photo.

Definition linkedb (person photo : string) (r : FaceRecord) : bool :=
  eval_cond (CAnd (PersonIdEq person) (PhotoIdEq photo)) r.

(** The rows the batch statement addresses. *)
Definition linked_any (person : string) (photos : list string) (r : FaceRecord) : Prop :=
  person_id r = Some person /\ In (photo_id r) photos.

Definition linked_anyb (person : string) (photos : list string) (r : FaceRecord) : bool :=
  eval_cond (CAnd (PersonIdEq person) (PhotoIdAny photos)) r.

(** The FaceRecord invariant: a verified record has a person and
    confidence 1.0. *)
Definition face_ok (r : FaceRecord) : bool :=
  implb (verified r)
        (match person_id r, recognition_confidence r with
         | Some _, Some c => Qeq_bool c one_point_zero
         | _, _ => false
         end).

Definition store_ok (w : World) : bool := forallb face_ok (photo_faces w).

(** The environment in which the rebuild of [env] does not raise. *)
Definition rebuild_ok (env : Env) : Env :=
  mkEnv (connect_error env) (query_error env) None.

(** ** Sample data *)

Definition healthy : Env := mkEnv None None None.

Definition index_down : Env := mkEnv None None (Some "index unavailable").

Definition alice_unverified : FaceRecord :=
  mkFace "f1" "ph1" (Some "alice") false (Some (7 # 10)%Q).

Definition alice_verified : FaceRecord :=
  mkFace "f1" "ph1" (Some "alice") true (Some one_point_zero).

Definition stranger : FaceRecord :=
  mkFace "f2" "ph1" None false None.

Definition bob_verified : FaceRecord :=
  mkFace "f3" "ph2" (Some "bob") true (Some one_point_zero).

Definition sample_world : World :=
  mkWorld [alice_unverified; stranger; bob_verified]
          [mkPerson "alice" "Alice"; mkPerson "bob" "Bob"]
          [].

(** ** Vocabulary of the statements below *)

Definition after_update (u : Update) (w : World) : World :=
  mkWorld (map (update_row u) (photo_faces w)) (people w) (trace w ++ [Statement u]).

Definition after_rebuild (w : World) : World :=
  mkWorld (photo_faces w) (people w) (trace w ++ [RebuildIndex]).

Definition after_delete (p : string) (w : World) : World :=
  mkWorld (map (detach p) (photo_faces w))
          (filter (fun q => negb (String.eqb (p_id q) p)) (people w))
          (trace w).

(** The exception a store call raises in [env], if any. *)
Definition store_error (env : Env) : option string :=
  match connect_error env with
  | Some m => Some m
  | None => query_error env
  end.

(** The end of a handler that has written to the store and now rebuilds. *)
Definition rebuild_then (env : Env) (body : json) (w : World) : outcome json * World :=
  match rebuild_error env with
  | Some m => (Raise (HTTPException 500 m), after_rebuild w)
  | None => (Return body, after_rebuild w)
  end.

(** As the specification words it: once a handler has reached its rebuild,
    a failing rebuild does not keep it from returning success. *)
Definition rebuild_failure_not_reported : Prop :=
  forall env req w,
    rebuild_error env <> None ->
    rebuild_calls (snd (handle env req w)) = S (rebuild_calls w) ->
    is_success (fst (handle env req w)) = true.

(** As the specification words it: every successful mutating call has
    triggered exactly one rebuild. *)
Definition every_success_rebuilds_once : Prop :=
  forall env req w,
    is_success (fst (handle env req w)) = true ->
    rebuild_calls (snd (handle env req w)) = S (rebuild_calls w).

(** The rebuilds a successful call has triggered: one for delete-person and
    verify-on-photo; for batch-verify and unlink one when the UPDATE hit a
    row, none when it hit no row. *)
Definition expected_rebuilds (req : Request) (w : World) : nat :=
  match req with
  | DeletePerson _ => 1
  | VerifyOnPhoto _ _ => 1
  | BatchVerify p phs =>
      if existsb (linked_anyb p phs) (photo_faces w) then 1 else 0
  | Unlink p ph =>
      if existsb (linkedb p ph) (photo_faces w) then 1 else 0
  end.

(** As the specification words it: a batch over a non-empty list runs one
    UPDATE and exactly one rebuild. *)
Definition batch_rebuilds_exactly_once : Prop :=
  forall p phs w,
    phs <> [] ->
    statements (snd (batch_verify_person_on_photos healthy p phs w)) = S (statements w)
    /\ rebuild_calls (snd (batch_verify_person_on_photos healthy p phs w))
       = S (rebuild_calls w).

(** What a verifying statement may do to a row: leave it, or mark a row
    of the given person verified with confidence 1.0. *)
Definition verified_only_for (p : string) (r r' : FaceRecord) : Prop :=
  r' = r
  \/ (person_id r = Some p
      /\ r' = mkFace (face_id r) (photo_id r) (Some p) true (Some one_point_zero)).

(** What an unlinking statement may do to a row: leave it, or clear the
    person and the verified flag together. *)
Definition cleared_together (r r' : FaceRecord) : Prop :=
  r' = r
  \/ r' = mkFace (face_id r) (photo_id r) None false None.

Definition row_changes (req : Request) : FaceRecord -> FaceRecord -> Prop :=
  match req with
  | VerifyOnPhoto p _ => verified_only_for p
  | BatchVerify p _ => verified_only_for p
  | Unlink _ _ => cleared_together
  | DeletePerson _ => cleared_together
  end.

(** What a request does to each row once its store call has gone through. *)
Definition row_map (req : Request) : FaceRecord -> FaceRecord :=
  match req with
  | DeletePerson p => detach p
  | VerifyOnPhoto p ph => update_row (verify_query p ph)
  | BatchVerify p phs => update_row (batch_verify_query p phs)
  | Unlink p ph => update_row (unlink_query p ph)
  end.


(** As the specification words it: unlinking a face that is not in the
    store fails with a 404. *)
Definition unlink_unknown_face_is_404 : Prop :=
  forall p ph w,
    (forall r, In r (photo_faces w) -> photo_id r <> ph) ->
    exists detail,
      fst (unlink_person_from_photo healthy p ph w) = Raise (HTTPException 404 detail).


(** ** Vocabulary of the composition results *)

(** The rows keep their keys and the [people] table is untouched. *)
Definition keeps_shape (w w' : World) : Prop :=
  map face_id (photo_faces w') = map face_id (photo_faces w)
  /\ map photo_id (photo_faces w') = map photo_id (photo_faces w)
  /\ people w' = people w.

(** What a verifying call does to a row: a selected row is marked verified
    with confidence 1.0 and keeps its person, every other row is kept. *)
Definition verified_by (sel : FaceRecord -> Prop) (r r' : FaceRecord) : Prop :=
  (sel r ->
   r' = mkFace (face_id r) (photo_id r) (person_id r) true (Some one_point_zero))
  /\ (~ sel r -> r' = r).

(** The events one handler call may append to the trace. *)
Definition one_call_tail (tail : list Event) : Prop :=
  tail = []
  \/ tail = [RebuildIndex]
  \/ exists u, tail = [Statement u] \/ tail = [Statement u; RebuildIndex].

(** ** The photo listings

    [get_person_photos] and [get_person_photos_with_details] read three
    tables: [gallery_images], [galleries] and [photo_faces].  Dates and
    timestamps are carried as their ISO text, which is what [str] prints. *)

(** A row of [gallery_images], with the columns the two queries select. *)
Record GalleryImage := mkImage {
  gi_id : string;
  gallery_id : string;
  image_url : string;
  original_url : option string;
  original_filename : option string;
  width : option nat;
  height : option nat;
  created_at : option string
}.

(** A row of [galleries]. *)
Record Gallery := mkGallery {
  g_id : string;
  title : option string;
  shoot_date : option string;
  sort_order : option string
}.

(** A decoded JSON value, as [json.loads] returns it; [pf.insightface_bbox]
    arrives as such a value or as text ([VStr]), NULL as [VNull]. *)
#[local] Unset Elimination Schemes.
Inductive value :=
| VNull
| VBool (b : bool)
| VNum (q : Q)
| VStr (s : string)
| VList (items : list value)
| VDict (fields : list (string * value)).
#[local] Set Elimination Schemes.

(** The tables beside [photo_faces]; the column [insightface_bbox] of
    [photo_faces], which no statement of the router writes, is read by face
    id. *)
Record Catalog := mkCatalog {
  gallery_images : list GalleryImage;
  galleries : list Gallery;
  insightface_bbox : string -> value
}.

(** [FROM gallery_images gi
     INNER JOIN photo_faces pf ON pf.photo_id = gi.id
     INNER JOIN galleries g ON g.id = gi.gallery_id] *)
Definition from_join (cat : Catalog) (faces : list FaceRecord)
  : list (GalleryImage * FaceRecord * Gallery) :=
  flat_map
    (fun gi =>
       flat_map
         (fun pf =>
            if String.eqb (photo_id pf) (gi_id gi) then
              map (fun g => (gi, pf, g))
                  (filter (fun g => String.eqb (g_id g) (gallery_id gi)) (galleries cat))
            else [])
         faces)
    (gallery_images cat).

(** [... WHERE pf.person_id = $1] *)
Definition person_faces_join (person : string) (cat : Catalog) (faces : list FaceRecord)
  : list (GalleryImage * FaceRecord * Gallery) :=
  filter (fun t => eval_cond (PersonIdEq person) (snd (fst t))) (from_join cat faces).

(** A row of the query of [get_person_photos]: the eight [gi] columns,
    [g.title as gallery_title] and [g.shoot_date as gallery_shoot_date]. *)
Record PhotoRow := mkPhotoRow {
  photo : GalleryImage;
  gallery_title : option string;
  gallery_shoot_date : option string
}.

Definition select_photo (t : GalleryImage * FaceRecord * Gallery) : PhotoRow :=
  let '(gi, _, g) := t in mkPhotoRow gi (title g) (shoot_date g).

Definition option_eq_dec {A} (dec : forall a b : A, {a = b} + {a <> b})
  : forall a b : option A, {a = b} + {a <> b}.
Proof. decide equality. Defined.

Definition GalleryImage_eq_dec : forall a b : GalleryImage, {a = b} + {a <> b}.
Proof.
  decide equality;
    first [ apply string_dec
          | apply (option_eq_dec string_dec)
          | apply (option_eq_dec Nat.eq_dec) ].
Defined.

Definition PhotoRow_eq_dec : forall a b : PhotoRow, {a = b} + {a <> b}.
Proof.
  decide equality;
    first [ apply (option_eq_dec string_dec) | apply GalleryImage_eq_dec ].
Defined.

(** [SELECT DISTINCT ...] of [get_person_photos], before its ORDER BY. *)
Definition person_photo_rows (person : string) (cat : Catalog) (faces : list FaceRecord)
  : list PhotoRow :=
  nodup PhotoRow_eq_dec (map select_photo (person_faces_join person cat faces)).

(** A row of the query of [get_person_photos_with_details]: the [gi]
    columns, the face columns, the gallery columns and [face_count]. *)
Record DetailRow := mkDetailRow {
  dr_image : GalleryImage;
  dr_face_id : string;
  dr_bounding_box : value;
  dr_confidence : option Q;
  dr_verified : bool;
  dr_gallery_name : option string;
  dr_shoot_date : option string;
  dr_sort_order : option string;
  dr_face_count : nat
}.

(** [(SELECT COUNT( * ) FROM photo_faces WHERE photo_id = gi.id)] *)
Definition face_count (faces : list FaceRecord) (gi : GalleryImage) : nat :=
  length (filter (fun f => String.eqb (photo_id f) (gi_id gi)) faces).

Definition select_detail (cat : Catalog) (faces : list FaceRecord)
           (t : GalleryImage * FaceRecord * Gallery) : DetailRow :=
  let '(gi, pf, g) := t in
  mkDetailRow gi (face_id pf) (insightface_bbox cat (face_id pf))
              (recognition_confidence pf) (verified pf)
              (title g) (shoot_date g) (sort_order g) (face_count faces gi).

(** The query of [get_person_photos_with_details], before its ORDER BY. *)
Definition person_detail_rows (person : string) (cat : Catalog) (faces : list FaceRecord)
  : list DetailRow :=
  map (select_detail cat faces) (person_faces_join person cat faces).

(** Python's truth value of a decoded value. *)
Definition truthy (v : value) : bool :=
  match v with
  | VNull => false
  | VBool b => b
  | VNum q => negb (Qeq_bool q 0)
  | VStr s => negb (String.eqb s "")
  | VList items => match items with [] => false | _ :: _ => true end
  | VDict fields => match fields with [] => false | _ :: _ => true end
  end.

(** [x or d] on a nullable number and on a nullable string. *)
Definition nat_or (x : option nat) (d : nat) : nat :=
  match x with
  | Some n => if Nat.eqb n 0 then d else n
  | None => d
  end.

Definition str_or (x : option string) (d : string) : string :=
  match x with
  | Some s => if String.eqb s "" then d else s
  | None => d
  end.

(** [float(c) if c else None] *)
Definition float_if_truthy (c : option Q) : option Q :=
  match c with
  | Some q => if Qeq_bool q 0 then None else Some q
  | None => None
  end.

(** An entry of the ["data"] list of [get_person_photos_with_details]. *)
Record PhotoDetail := mkPhotoDetail {
  pd_id : string;
  pd_image_url : string;
  pd_gallery_id : string;
  pd_width : nat;
  pd_height : nat;
  pd_faceId : string;
  pd_confidence : option Q;
  pd_verified : bool;
  pd_boundingBox : value;
  pd_faceCount : nat;
  pd_filename : string;
  pd_gallery_name : option string;
  pd_shootDate : option string;
  pd_sort_order : string;
  pd_created_at : option string
}.

Record PhotosResponse := mkPhotosResponse {
  pr_success : bool;
  pr_photos : list PhotoRow;
  pr_count : nat
}.

Record DetailsResponse := mkDetailsResponse {
  dt_success : bool;
  dt_data : list PhotoDetail
}.

Section Listings.

Variable env : Env.
Variable cat : Catalog.

(** The two ORDER BY clauses, [g.shoot_date DESC, gi.created_at DESC] and
    [g.shoot_date DESC NULLS LAST, gi.original_filename ASC]: the order of
    text and of ties is the database's, so the sort is left open. *)
Variable order_photos : list PhotoRow -> list PhotoRow.
Variable order_details : list DetailRow -> list DetailRow.

(** [json.loads]; [None] when it raises. *)
Variable json_loads : string -> option value.

(** [await db.fetch(query, person_id)] for a SELECT: the rows are computed
    from [photo_faces] and nothing is written. *)
Definition fetch_select {A} (q : list FaceRecord -> A) : M A :=
  fun w =>
    match query_error env with
    | Some m => (Raise (Exception m), w)
    | None => (Return (q (photo_faces w)), w)
    end.

(** [GET /api/people/{person_id}/photos] *)
Definition get_person_photos (person : string) : M PhotosResponse :=
  try_except
    (connect env ;;
     rows <- fetch_select (fun faces => order_photos (person_photo_rows person cat faces)) ;;
     let photos := rows in
     ret (mkPhotosResponse true photos (length photos)))
    all_as_500.

(** The bounding box of one row: text that is not empty is decoded, and
    becomes null when decoding raises; anything else is passed on. *)
Definition parse_bounding_box (bbox : value) : value :=
  if truthy bbox then
    match bbox with
    | VStr s =>
        match json_loads s with
        | Some v => v
        | None => VNull
        end
    | _ => bbox
    end
  else bbox.

(** The dictionary appended to [photos] for one row. *)
Definition photo_detail (row : DetailRow) : PhotoDetail :=
  let bbox := parse_bounding_box (dr_bounding_box row) in
  mkPhotoDetail
    (gi_id (dr_image row))
    (image_url (dr_image row))
    (gallery_id (dr_image row))
    (nat_or (width (dr_image row)) 0)
    (nat_or (height (dr_image row)) 0)
    (dr_face_id row)
    (float_if_truthy (dr_confidence row))
    (dr_verified row)
    bbox
    (dr_face_count row)
    (str_or (original_filename (dr_image row)) "unknown")
    (dr_gallery_name row)
    (dr_shoot_date row)
    (str_or (dr_sort_order row) "filename")
    (created_at (dr_image row)).

(** [GET /api/people/{person_id}/photos-with-details] *)
Definition get_person_photos_with_details (person : string) : M DetailsResponse :=
  try_except
    (connect env ;;
     rows <- fetch_select (fun faces => order_details (person_detail_rows person cat faces)) ;;
     ret (mkDetailsResponse true (map photo_detail rows)))
    all_as_500.

End Listings.

Arguments fetch_select env {A} q.

(** The primary keys of the three tables are unique. *)
Definition unique_keys (cat : Catalog) (faces : list FaceRecord) : Prop :=
  NoDup (map gi_id (gallery_images cat))
  /\ NoDup (map g_id (galleries cat))
  /\ NoDup (map face_id faces).

(** The person has a face on the image, and the image's gallery exists. *)
Definition appears_on (person : string) (cat : Catalog) (faces : list FaceRecord)
           (gi : GalleryImage) (g : Gallery) : Prop :=
  In gi (gallery_images cat)
  /\ In g (galleries cat)
  /\ g_id g = gallery_id gi
  /\ exists pf, In pf faces /\ photo_id pf = gi_id gi /\ person_id pf = Some person.

Definition sample_catalog : Catalog :=
  mkCatalog
    [mkImage "ph1" "g1" "https://img/1.jpg" None (Some "a.jpg") (Some 800) (Some 600) None;
     mkImage "ph2" "g1" "https://img/2.jpg" None None None None None]
    [mkGallery "g1" (Some "Open 2024") (Some "2024-05-01") None]
    (fun f => if String.eqb f "f3" then VStr "not json" else VNull).

(** A [json.loads] that decodes nothing. *)
Definition no_json (s : string) : option value := None.

(** The photos a listing call returned; none when it failed. *)
Definition listed_photos (o : outcome PhotosResponse) : list PhotoRow :=
  match o with
  | Return r => pr_photos r
  | Raise _ => []
  end.

Definition listed_details (o : outcome DetailsResponse) : list PhotoDetail :=
  match o with
  | Return r => dt_data r
  | Raise _ => []
  end.

(** What an entry of the detailed listing always carries. *)
Definition detail_filled (d : PhotoDetail) : Prop :=
  pd_filename d <> ""
  /\ pd_sort_order d <> ""
  /\ (forall c, pd_confidence d = Some c -> ~ (c == 0)%Q)
  /\ 1 <= pd_faceCount d.

(** The face of a joined row. *)
Definition joined_face_id (t : GalleryImage * FaceRecord * Gallery) : string :=
  face_id (snd (fst t)).

(** ** The handlers of the [people] table

    [get_all_people], [get_person_by_id], [create_person], [update_person]
    and [update_person_avatar] hand their work to methods of
    [PostgresClient] and to the request schemas, neither of which is among
    the sources of this router; they are left open, as for
    [create_person_from_cluster]. *)
Section PeopleTable.

Variable PersonRow : Type.          (* a person as the store returns it *)
Variable PersonCreate : Type.       (* request body of POST *)
Variable PersonUpdate : Type.       (* request body of PUT *)
Variable Fields : Type.             (* a dict of column values *)

Variable model_dump : PersonCreate -> Fields.
Variable model_dump_exclude_unset : PersonUpdate -> Fields.
(** [{"avatar_url": avatar_url}] *)
Variable avatar_fields : string -> Fields.

Variable db_get_all_people : bool -> M (list PersonRow).
Variable db_get_person_by_id : string -> M (option PersonRow).
Variable db_create_person : Fields -> M PersonRow.
Variable db_update_person : string -> Fields -> M (option PersonRow).
(** [person['id']], which the log line of [create_person] reads inside the
    [try] block: the id, or the exception the subscript raises. *)
Variable created_id_of : PersonRow -> outcome string.

(** [GET /api/people] *)
Definition get_all_people (include_stats : bool) : M (list PersonRow) :=
  try_except
    (people <- db_get_all_people include_stats ;;
     ret people)
    all_as_500.

(** [GET /api/people/{person_id}] *)
Definition get_person_by_id (person : string) : M PersonRow :=
  try_except
    (found <- db_get_person_by_id person ;;
     match found with
     | None => raise (HTTPException 404 ("Person " ++ person ++ " not found"))
     | Some row => ret row
     end)
    reraise_http_else_500.

(** [POST /api/people] *)
Definition create_person (data : PersonCreate) : M PersonRow :=
  try_except
    (person <- db_create_person (model_dump data) ;;
     evaluate (created_id_of person) ;;
     ret person)
    all_as_500.

(** [PUT /api/people/{person_id}] *)
Definition update_person (person : string) (data : PersonUpdate) : M PersonRow :=
  try_except
    (found <- db_update_person person (model_dump_exclude_unset data) ;;
     match found with
     | None => raise (HTTPException 404 ("Person " ++ person ++ " not found"))
     | Some row => ret row
     end)
    reraise_http_else_500.

(** [PUT /api/people/{person_id}/avatar]; the body returned is
    [{"success": True, "person": person}]. *)
Definition update_person_avatar (person avatar_url : string) : M (bool * PersonRow) :=
  try_except
    (found <- db_update_person person (avatar_fields avatar_url) ;;
     match found with
     | None => raise (HTTPException 404 ("Person " ++ person ++ " not found"))
     | Some row => ret (true, row)
     end)
    reraise_http_else_500.

End PeopleTable.

Arguments get_all_people {PersonRow}.
Arguments get_person_by_id {PersonRow}.
Arguments create_person {PersonRow PersonCreate Fields}.
Arguments update_person {PersonRow PersonUpdate Fields}.
Arguments update_person_avatar {PersonRow Fields}.

(** The response a lookup gives for what the store found. *)
Definition found_or_404 {R A} (person : string) (wrap : R -> A) (found : option R)
  : outcome A :=
  match found with
  | None => Raise (HTTPException 404 ("Person " ++ person ++ " not found"))
  | Some row => Return (wrap row)
  end.

(** An outcome that is not a bare exception. *)
Definition http_only {A} (o : outcome A) : Prop :=
  match o with
  | Return _ => True
  | Raise (HTTPException _ _) => True
  | Raise (Exception _) => False
  end.

(** An outcome that succeeds or fails with status 500. *)
Definition ok_or_500 {A} (o : outcome A) : Prop :=
  match o with
  | Return _ => True
  | Raise (HTTPException c _) => c = 500
  | Raise (Exception _) => False
  end.

(** A store with [people] as its table of persons, for the examples. *)
Definition lookup_person (person : string) : M (option Person) :=
  fun w => (Return (find (fun q => String.eqb (p_id q) person) (people w)), w).

(** ** Concrete runs *)

Example verify_run :
  verify_person_on_photo healthy "alice" "ph1" sample_world =
  (Return (success_data "verified" (JBool true)),
   mkWorld [alice_verified; stranger; bob_verified] (people sample_world)
           [Statement (verify_query "alice" "ph1"); RebuildIndex]).
Proof. reflexivity. Qed.

Example unlink_run :
  unlink_person_from_photo healthy "bob" "ph2" sample_world =
  (Return (success_data "unlinked_count" (JNum 1)),
   mkWorld [alice_unverified; stranger; mkFace "f3" "ph2" None false None]
           (people sample_world)
           [Statement (unlink_query "bob" "ph2"); RebuildIndex]).
Proof. reflexivity. Qed.

Example batch_verify_run :
  batch_verify_person_on_photos healthy "alice" ["ph9"; "ph1"] sample_world =
  (Return (success_data "verified_count" (JNum 1)),
   mkWorld [alice_verified; stranger; bob_verified] (people sample_world)
           [Statement (batch_verify_query "alice" ["ph9"; "ph1"]); RebuildIndex]).
Proof. reflexivity. Qed.

Example delete_run :
  delete_person healthy "bob" sample_world =
  (Return (success_message "Person bob deleted"),
   mkWorld [alice_unverified; stranger; mkFace "f3" "ph2" None false None]
           [mkPerson "alice" "Alice"]
           [RebuildIndex]).
Proof. reflexivity. Qed.

Example store_failure_run :
  unlink_person_from_photo (mkEnv None (Some "connection lost") None)
                           "bob" "ph2" sample_world =
  (Raise (HTTPException 500 "connection lost"), sample_world).
Proof. reflexivity. Qed.

(** ** Facts about the statements *)

Lemma mem_In x l : mem x l = true <-> In x l.
Proof.
  unfold mem. rewrite existsb_exists. split.
  - intros [y [Hin Heq]]. apply String.eqb_eq in Heq. now subst.
  - intros Hin. exists x. split; [assumption | apply String.eqb_refl].
Qed.

Lemma person_id_eq_iff p r :
  eval_cond (PersonIdEq p) r = true <-> person_id r = Some p.
Proof.
  simpl. destruct (person_id r) as [q|].
  - rewrite String.eqb_eq. split; congruence.
  - split; discriminate.
Qed.

Lemma linkedb_iff p ph r : linkedb p ph r = true <-> linked p ph r.
Proof.
  unfold linkedb, linked. cbn [eval_cond].
  rewrite andb_true_iff, <- person_id_eq_iff, String.eqb_eq. reflexivity.
Qed.

Lemma linked_anyb_iff p phs r : linked_anyb p phs r = true <-> linked_any p phs r.
Proof.
  unfold linked_anyb, linked_any. cbn [eval_cond].
  rewrite andb_true_iff, <- person_id_eq_iff, mem_In. reflexivity.
Qed.

Lemma filter_nil_iff {A} (f : A -> bool) l :
  filter f l = [] <-> forall x, In x l -> f x = false.
Proof.
  induction l as [|a l IH]; simpl.
  - split; [intros _ x [] | reflexivity].
  - destruct (f a) eqn:Ha.
    + split; [discriminate |].
      intros H. rewrite (H a) in Ha by now left. discriminate.
    + rewrite IH. split.
      * intros H x [<- | Hin]; [assumption | now apply H].
      * intros H x Hin. apply H. now right.
Qed.

Lemma existsb_filter {A} (f : A -> bool) l :
  existsb f l = negb (Nat.eqb (length (filter f l)) 0).
Proof.
  induction l as [|a l IH]; simpl; [reflexivity |].
  destruct (f a); simpl; [reflexivity | assumption].
Qed.

(** A statement that matches no row leaves the table as it is. *)
Lemma update_no_match u t :
  filter (eval_cond (upd_where u)) t = [] -> map (update_row u) t = t.
Proof.
  rewrite filter_nil_iff. intros H.
  rewrite <- (map_id t) at 2. apply map_ext_in.
  intros r Hin. unfold update_row. now rewrite (H r Hin).
Qed.

Lemma returning_id_length u t :
  length (returning_id u t) = length (filter (eval_cond (upd_where u)) t).
Proof. unfold returning_id. apply length_map. Qed.

(** ** What each handler computes

    One equation per handler, by cases on what the collaborators do. *)

Ltac run_handler :=
  unfold delete_person, verify_person_on_photo, batch_verify_person_on_photos,
    unlink_person_from_photo, db_delete_person, try_except, bind, connect, fetch,
    rebuild_players_index, run_update, returning_id, store_error, rebuild_then,
    reraise_http_else_500, all_as_500, raise, ret.

Lemma delete_person_eq env p w :
  delete_person env p w =
  match store_error env with
  | Some m => (Raise (HTTPException 500 m), w)
  | None =>
      if has_person p (people w) then
        rebuild_then env (success_message ("Person " ++ p ++ " deleted")) (after_delete p w)
      else (Raise (HTTPException 404 ("Person " ++ p ++ " not found")), w)
  end.
Proof.
  run_handler.
  destruct (connect_error env), (query_error env); try reflexivity.
  destruct (has_person p (people w)); [| reflexivity].
  simpl. destruct (rebuild_error env); reflexivity.
Qed.

Lemma verify_person_on_photo_eq env p ph w :
  verify_person_on_photo env p ph w =
  match store_error env with
  | Some m => (Raise (HTTPException 500 m), w)
  | None =>
      if existsb (linkedb p ph) (photo_faces w) then
        rebuild_then env (success_data "verified" (JBool true))
                     (after_update (verify_query p ph) w)
      else
        (Raise (HTTPException 404
                  ("Face not found for person " ++ p ++ " on photo " ++ ph)),
         after_update (verify_query p ph) w)
  end.
Proof.
  run_handler.
  destruct (connect_error env), (query_error env); try reflexivity.
  rewrite existsb_filter. unfold linkedb. cbn [upd_where verify_query].
  destruct (filter _ (photo_faces w)); [reflexivity |].
  simpl. destruct (rebuild_error env); reflexivity.
Qed.

Lemma batch_verify_person_on_photos_eq env p phs w :
  batch_verify_person_on_photos env p phs w =
  match connect_error env with
  | Some m => (Raise (HTTPException 500 m), w)
  | None =>
      match phs with
      | [] => (Return (success_data "verified_count" (JNum 0)), w)
      | _ :: _ =>
          match query_error env with
          | Some m => (Raise (HTTPException 500 m), w)
          | None =>
              let n := length (filter (linked_anyb p phs) (photo_faces w)) in
              let body := success_data "verified_count" (JNum n) in
              if existsb (linked_anyb p phs) (photo_faces w) then
                rebuild_then env body (after_update (batch_verify_query p phs) w)
              else (Return body, after_update (batch_verify_query p phs) w)
          end
      end
  end.
Proof.
  run_handler.
  destruct (connect_error env); [reflexivity |].
  destruct phs as [|ph phs]; [reflexivity |].
  destruct (query_error env); [reflexivity |].
  rewrite existsb_filter. unfold linked_anyb.
  cbn [upd_where batch_verify_query]. rewrite length_map.
  destruct (filter _ (photo_faces w)); [reflexivity |].
  simpl. destruct (rebuild_error env); reflexivity.
Qed.

Lemma unlink_person_from_photo_eq env p ph w :
  unlink_person_from_photo env p ph w =
  match store_error env with
  | Some m => (Raise (HTTPException 500 m), w)
  | None =>
      let n := length (filter (linkedb p ph) (photo_faces w)) in
      let body := success_data "unlinked_count" (JNum n) in
      if existsb (linkedb p ph) (photo_faces w) then
        rebuild_then env body (after_update (unlink_query p ph) w)
      else (Return body, after_update (unlink_query p ph) w)
  end.
Proof.
  run_handler.
  destruct (connect_error env), (query_error env); try reflexivity.
  rewrite existsb_filter. unfold linkedb.
  cbn [upd_where unlink_query]. rewrite length_map.
  destruct (filter _ (photo_faces w)); [reflexivity |].
  simpl. destruct (rebuild_error env); reflexivity.
Qed.

(** ** Facts about the trace *)

Lemma rebuild_calls_after_update u w :
  rebuild_calls (after_update u w) = rebuild_calls w.
Proof.
  unfold rebuild_calls, after_update. simpl.
  rewrite filter_app, length_app. simpl. lia.
Qed.

Lemma rebuild_calls_after_rebuild w :
  rebuild_calls (after_rebuild w) = S (rebuild_calls w).
Proof.
  unfold rebuild_calls, after_rebuild. simpl.
  rewrite filter_app, length_app. simpl. lia.
Qed.

Lemma rebuild_calls_after_delete p w :
  rebuild_calls (after_delete p w) = rebuild_calls w.
Proof. reflexivity. Qed.

Lemma statements_after_update u w :
  statements (after_update u w) = S (statements w).
Proof.
  unfold statements, after_update. simpl.
  rewrite filter_app, length_app. simpl. lia.
Qed.

Lemma statements_after_rebuild w :
  statements (after_rebuild w) = statements w.
Proof.
  unfold statements, after_rebuild. simpl.
  rewrite filter_app, length_app. simpl. lia.
Qed.

Lemma snd_rebuild_then env body w :
  snd (rebuild_then env body w) = after_rebuild w.
Proof. unfold rebuild_then. destruct (rebuild_error env); reflexivity. Qed.

Lemma fst_rebuild_then_raises env body w m :
  rebuild_error env = Some m ->
  fst (rebuild_then env body w) = Raise (HTTPException 500 m).
Proof. unfold rebuild_then. now intros ->. Qed.

Lemma fst_rebuild_then_returns env body w :
  rebuild_error env = None ->
  fst (rebuild_then env body w) = Return body.
Proof. unfold rebuild_then. now intros ->. Qed.

Lemma store_error_rebuild_ok env : store_error (rebuild_ok env) = store_error env.
Proof. reflexivity. Qed.

Lemma existsb_Exists {A} (f : A -> bool) (P : A -> Prop) l :
  (forall x, f x = true <-> P x) ->
  existsb f l = true <-> Exists P l.
Proof.
  intros Hf. rewrite existsb_exists, Exists_exists.
  split; intros [x [Hin Hx]]; exists x; split; try assumption; now apply Hf.
Qed.

Lemma no_link_existsb p ph t :
  (forall r, In r t -> ~ linked p ph r) -> existsb (linkedb p ph) t = false.
Proof.
  intros H. destruct (existsb (linkedb p ph) t) eqn:E; [| reflexivity].
  apply existsb_exists in E. destruct E as [r [Hin Hr]].
  apply linkedb_iff in Hr. now elim (H r Hin).
Qed.

Lemma existsb_false_filter {A} (f : A -> bool) l :
  existsb f l = false -> filter f l = [].
Proof.
  rewrite existsb_filter. destruct (filter f l); [reflexivity | discriminate].
Qed.

(** No row lies on a photo of the empty list. *)
Lemma no_row_on_empty_list p t : existsb (linked_anyb p []) t = false.
Proof.
  induction t as [|r t IH]; [reflexivity |].
  simpl. rewrite IH. unfold linked_anyb. simpl. now rewrite andb_false_r.
Qed.

(** * Rebuild failures (C1) *)

(** The run behind the counterexample: the UPDATE has verified Alice's
    face, the rebuild raises, and the caller gets a 500. *)
Example verify_index_down_run :
  verify_person_on_photo index_down "alice" "ph1" sample_world =
  (Raise (HTTPException 500 "index unavailable"),
   mkWorld [alice_verified; stranger; bob_verified] (people sample_world)
           [Statement (verify_query "alice" "ph1"); RebuildIndex]).
Proof. reflexivity. Qed.

(** C1, counterexample: verify-on-photo for Alice on photo ph1 while the
    index service raises commits the UPDATE, calls the rebuild once and
    answers with an error. *)
Lemma rebuild_failure_is_reported : ~ rebuild_failure_not_reported.
Proof.
  intros H.
  assert (Hf : is_success
                 (fst (handle index_down (VerifyOnPhoto "alice" "ph1") sample_world))
               = true).
  { apply H; [discriminate | reflexivity]. }
  discriminate Hf.
Qed.

(** C1, as amended: when the rebuild that a handler (delete-person,
    verify-on-photo, batch-verify, unlink) triggers raises, the handler
    answers HTTP 500 with the rebuild's message, while the tables hold
    exactly what they hold after the run in which the rebuild does not
    raise, and that run returns success. *)
Theorem rebuild_failure_answers_500 env req w m :
  rebuild_error env = Some m ->
  rebuild_calls (snd (handle env req w)) <> rebuild_calls w ->
  fst (handle env req w) = Raise (HTTPException 500 m)
  /\ photo_faces (snd (handle env req w))
     = photo_faces (snd (handle (rebuild_ok env) req w))
  /\ people (snd (handle env req w)) = people (snd (handle (rebuild_ok env) req w))
  /\ is_success (fst (handle (rebuild_ok env) req w)) = true.
Proof.
  intros Hm Hcalls.
  destruct req as [p | p ph | p phs | p ph]; cbn [handle] in *.
  - rewrite !delete_person_eq in *. rewrite store_error_rebuild_ok.
    destruct (store_error env); [now elim Hcalls |].
    destruct (has_person p (people w)); [| now elim Hcalls].
    rewrite !snd_rebuild_then, (fst_rebuild_then_raises _ _ _ _ Hm).
    rewrite fst_rebuild_then_returns by reflexivity. repeat split.
  - rewrite !verify_person_on_photo_eq in *. rewrite store_error_rebuild_ok.
    destruct (store_error env); [now elim Hcalls |].
    destruct (existsb (linkedb p ph) (photo_faces w)).
    + rewrite !snd_rebuild_then, (fst_rebuild_then_raises _ _ _ _ Hm).
      rewrite fst_rebuild_then_returns by reflexivity. repeat split.
    + cbn [snd] in Hcalls. rewrite rebuild_calls_after_update in Hcalls.
      now elim Hcalls.
  - rewrite !batch_verify_person_on_photos_eq in *. cbn [rebuild_ok connect_error query_error].
    destruct (connect_error env); [now elim Hcalls |].
    destruct phs as [|ph0 phs]; [now elim Hcalls |].
    destruct (query_error env); [now elim Hcalls |].
    cbv zeta in *.
    destruct (existsb (linked_anyb p (ph0 :: phs)) (photo_faces w)).
    + rewrite !snd_rebuild_then, (fst_rebuild_then_raises _ _ _ _ Hm).
      rewrite fst_rebuild_then_returns by reflexivity. repeat split.
    + cbn [snd] in Hcalls. rewrite rebuild_calls_after_update in Hcalls.
      now elim Hcalls.
  - rewrite !unlink_person_from_photo_eq in *. rewrite store_error_rebuild_ok.
    destruct (store_error env); [now elim Hcalls |].
    cbv zeta in *.
    destruct (existsb (linkedb p ph) (photo_faces w)).
    + rewrite !snd_rebuild_then, (fst_rebuild_then_raises _ _ _ _ Hm).
      rewrite fst_rebuild_then_returns by reflexivity. repeat split.
    + cbn [snd] in Hcalls. rewrite rebuild_calls_after_update in Hcalls.
      now elim Hcalls.
Qed.

Lemma rebuild_failure_answers_500_witness :
  rebuild_error index_down = Some "index unavailable"
  /\ rebuild_calls (snd (handle index_down (Unlink "bob" "ph2") sample_world))
     <> rebuild_calls sample_world
  /\ fst (handle index_down (Unlink "bob" "ph2") sample_world)
     = Raise (HTTPException 500 "index unavailable")
  /\ photo_faces (snd (handle index_down (Unlink "bob" "ph2") sample_world))
     = [alice_unverified; stranger; mkFace "f3" "ph2" None false None].
Proof.
  assert (H1 : rebuild_error index_down = Some "index unavailable") by reflexivity.
  assert (H2 : rebuild_calls (snd (handle index_down (Unlink "bob" "ph2") sample_world))
               <> rebuild_calls sample_world) by (vm_compute; discriminate).
  destruct (rebuild_failure_answers_500 index_down (Unlink "bob" "ph2") sample_world
              "index unavailable" H1 H2)
    as [H3 [H4 _]].
  split; [exact H1 |]. split; [exact H2 |]. split; [exact H3 |].
  rewrite H4. reflexivity.
Defined.

(** * Rebuilds per successful call (C2) *)

(** C2, counterexample: unlinking Alice from photo ph9, on which she has no
    face, succeeds with [unlinked_count = 0] and calls no rebuild. *)
Lemma unlink_success_without_rebuild : ~ every_success_rebuilds_once.
Proof.
  intros H.
  specialize (H healthy (Unlink "alice" "ph9") sample_world eq_refl).
  vm_compute in H. discriminate H.
Qed.

(** C2, as amended: a successful delete-person or verify-on-photo has
    triggered exactly one rebuild; a successful batch-verify or unlink has
    triggered exactly one rebuild when its UPDATE changed at least one row
    and none when it matched no row. *)
Theorem success_rebuild_count env req w :
  is_success (fst (handle env req w)) = true ->
  rebuild_calls (snd (handle env req w)) = rebuild_calls w + expected_rebuilds req w.
Proof.
  intros Hok.
  destruct req as [p | p ph | p phs | p ph]; cbn [handle expected_rebuilds] in *.
  - rewrite delete_person_eq in *.
    destruct (store_error env); [discriminate Hok |].
    destruct (has_person p (people w)); [| discriminate Hok].
    rewrite snd_rebuild_then, rebuild_calls_after_rebuild, rebuild_calls_after_delete.
    lia.
  - rewrite verify_person_on_photo_eq in *.
    destruct (store_error env); [discriminate Hok |].
    destruct (existsb (linkedb p ph) (photo_faces w)); [| discriminate Hok].
    rewrite snd_rebuild_then, rebuild_calls_after_rebuild, rebuild_calls_after_update.
    lia.
  - rewrite batch_verify_person_on_photos_eq in *.
    destruct (connect_error env); [discriminate Hok |].
    destruct phs as [|ph0 phs]; [cbn [snd]; rewrite no_row_on_empty_list; lia |].
    destruct (query_error env); [discriminate Hok |].
    cbv zeta in *.
    destruct (existsb (linked_anyb p (ph0 :: phs)) (photo_faces w)).
    + rewrite snd_rebuild_then, rebuild_calls_after_rebuild, rebuild_calls_after_update.
      lia.
    + cbn [snd]. rewrite rebuild_calls_after_update. lia.
  - rewrite unlink_person_from_photo_eq in *.
    destruct (store_error env); [discriminate Hok |].
    cbv zeta in *.
    destruct (existsb (linkedb p ph) (photo_faces w)).
    + rewrite snd_rebuild_then, rebuild_calls_after_rebuild, rebuild_calls_after_update.
      lia.
    + cbn [snd]. rewrite rebuild_calls_after_update. lia.
Qed.

Lemma success_rebuild_count_witness :
  is_success (fst (handle healthy (BatchVerify "alice" ["ph9"; "ph1"]) sample_world)) = true
  /\ rebuild_calls (snd (handle healthy (BatchVerify "alice" ["ph9"; "ph1"]) sample_world))
     = 1.
Proof.
  assert (H : is_success
                (fst (handle healthy (BatchVerify "alice" ["ph9"; "ph1"]) sample_world))
              = true) by reflexivity.
  split; [exact H |].
  rewrite (success_rebuild_count healthy (BatchVerify "alice" ["ph9"; "ph1"])
             sample_world H).
  reflexivity.
Defined.

(** The router code of create-person-from-cluster leaves the world as the
    store method left it: it issues no call of its own after it. *)
Lemma create_person_from_cluster_world
      (ClusterFace PersonRow : Type)
      (db : string -> list ClusterFace -> M PersonRow)
      (id_of : PersonRow -> outcome string) name faces w :
  snd (create_person_from_cluster db id_of name faces w) = snd (db name faces w).
Proof.
  unfold create_person_from_cluster, try_except, bind, ret, all_as_500, raise,
    evaluate.
  destruct (db name faces w) as [[person | e] w']; [| reflexivity].
  destruct (id_of person); reflexivity.
Qed.

(** * Batch verification: one UPDATE, at most one rebuild (C3) *)

(** The run behind the counterexample: the UPDATE runs, matches nothing,
    and the rebuild is skipped. *)
Example batch_no_match_run :
  batch_verify_person_on_photos healthy "alice" ["ph9"] sample_world =
  (Return (success_data "verified_count" (JNum 0)),
   mkWorld (photo_faces sample_world) (people sample_world)
           [Statement (batch_verify_query "alice" ["ph9"])]).
Proof. reflexivity. Qed.

(** C3, counterexample: a batch for Alice over the one photo ph9, on which
    she has no face, runs its UPDATE and no rebuild. *)
Lemma batch_without_match_skips_rebuild : ~ batch_rebuilds_exactly_once.
Proof.
  intros H.
  destruct (H "alice" ["ph9"] sample_world) as [_ Hr]; [discriminate |].
  vm_compute in Hr. discriminate Hr.
Qed.

(** C3, as amended: for a non-empty list of photo ids and a reachable
    store, one batch-verify call runs exactly one UPDATE over the whole
    table and at most one rebuild: exactly one when some row is linked to
    the person on a listed photo, none otherwise. *)
Theorem batch_verify_one_update_one_rebuild env p phs w :
  connect_error env = None ->
  query_error env = None ->
  phs <> [] ->
  statements (snd (batch_verify_person_on_photos env p phs w)) = S (statements w)
  /\ photo_faces (snd (batch_verify_person_on_photos env p phs w))
     = map (update_row (batch_verify_query p phs)) (photo_faces w)
  /\ (Exists (linked_any p phs) (photo_faces w) ->
      rebuild_calls (snd (batch_verify_person_on_photos env p phs w))
      = S (rebuild_calls w))
  /\ (~ Exists (linked_any p phs) (photo_faces w) ->
      rebuild_calls (snd (batch_verify_person_on_photos env p phs w))
      = rebuild_calls w).
Proof.
  intros Hc Hq Hne.
  rewrite batch_verify_person_on_photos_eq, Hc, Hq.
  destruct phs as [|ph0 phs]; [now elim Hne |].
  cbv zeta.
  pose proof (existsb_Exists (linked_anyb p (ph0 :: phs))
                (linked_any p (ph0 :: phs)) (photo_faces w)
                (linked_anyb_iff p (ph0 :: phs))) as Hex.
  destruct (existsb (linked_anyb p (ph0 :: phs)) (photo_faces w)).
  - rewrite snd_rebuild_then, statements_after_rebuild, statements_after_update,
      rebuild_calls_after_rebuild, rebuild_calls_after_update.
    repeat split. intros Hno. elim Hno. now apply Hex.
  - cbn [snd]. rewrite statements_after_update, rebuild_calls_after_update.
    repeat split. intros Hyes. apply Hex in Hyes. discriminate Hyes.
Qed.

Lemma batch_verify_one_update_one_rebuild_witness :
  connect_error healthy = None
  /\ query_error healthy = None
  /\ ["ph9"; "ph1"] <> []
  /\ statements (snd (batch_verify_person_on_photos healthy "alice" ["ph9"; "ph1"]
                        sample_world)) = 1.
Proof.
  assert (Hne : ["ph9"; "ph1"] <> @nil string) by discriminate.
  destruct (batch_verify_one_update_one_rebuild healthy "alice" ["ph9"; "ph1"]
              sample_world eq_refl eq_refl Hne) as [H _].
  split; [reflexivity |]. split; [reflexivity |]. split; [exact Hne | exact H].
Defined.

(** * The FaceRecord invariant (C4) *)

(** [face_ok] says what the invariant says. *)
Lemma face_ok_spec r :
  face_ok r = true <->
  (verified r = true ->
   person_id r <> None
   /\ exists c, recognition_confidence r = Some c /\ (c == one_point_zero)%Q).
Proof.
  unfold face_ok.
  destruct (verified r); simpl.
  - destruct (person_id r) as [q|], (recognition_confidence r) as [c|].
    + rewrite Qeq_bool_iff. split.
      * intros Hc _. split; [discriminate | now exists c].
      * intros H. destruct (H eq_refl) as [_ [c' [Hc' Heq]]]. now inversion Hc'; subst.
    + split; [discriminate |].
      intros H. destruct (H eq_refl) as [_ [c' [Hc' _]]]. discriminate Hc'.
    + split; [discriminate |].
      intros H. destruct (H eq_refl) as [Hp _]. now elim Hp.
    + split; [discriminate |].
      intros H. destruct (H eq_refl) as [Hp _]. now elim Hp.
  - split; [discriminate | reflexivity].
Qed.

Lemma photo_faces_rebuild_then env body w :
  photo_faces (snd (rebuild_then env body w)) = photo_faces w.
Proof. now rewrite snd_rebuild_then. Qed.

(** A handler leaves the table alone or maps [row_map] over it. *)
Lemma photo_faces_handle env req w :
  photo_faces (snd (handle env req w)) = photo_faces w
  \/ photo_faces (snd (handle env req w)) = map (row_map req) (photo_faces w).
Proof.
  destruct req as [p | p ph | p phs | p ph]; cbn [handle row_map].
  - rewrite delete_person_eq.
    destruct (store_error env); [now left |].
    destruct (has_person p (people w)); [| now left].
    right. now rewrite photo_faces_rebuild_then.
  - rewrite verify_person_on_photo_eq.
    destruct (store_error env); [now left |].
    right. destruct (existsb _ _); [now rewrite photo_faces_rebuild_then | reflexivity].
  - rewrite batch_verify_person_on_photos_eq.
    destruct (connect_error env); [now left |].
    destruct phs as [|ph0 phs]; [now left |].
    destruct (query_error env); [now left |].
    right. cbv zeta.
    destruct (existsb _ _); [now rewrite photo_faces_rebuild_then | reflexivity].
  - rewrite unlink_person_from_photo_eq.
    destruct (store_error env); [now left |].
    right. cbv zeta.
    destruct (existsb _ _); [now rewrite photo_faces_rebuild_then | reflexivity].
Qed.

Lemma row_map_changes req r : row_changes req r (row_map req r).
Proof.
  destruct req as [p | p ph | p phs | p ph]; cbn [row_changes row_map].
  - unfold detach, refers_to, cleared_together.
    destruct (eval_cond (PersonIdEq p) r); [now right | now left].
  - unfold update_row, verified_only_for. cbn [upd_where verify_query].
    fold (linkedb p ph r).
    destruct (linkedb p ph r) eqn:Hl; [| now left].
    apply linkedb_iff in Hl. destruct Hl as [Hp _].
    right. split; [assumption |]. unfold apply_set. simpl. now rewrite Hp.
  - unfold update_row, verified_only_for. cbn [upd_where batch_verify_query].
    fold (linked_anyb p phs r).
    destruct (linked_anyb p phs r) eqn:Hl; [| now left].
    apply linked_anyb_iff in Hl. destruct Hl as [Hp _].
    right. split; [assumption |]. unfold apply_set. simpl. now rewrite Hp.
  - unfold update_row, cleared_together.
    destruct (eval_cond _ r); [now right | now left].
Qed.

Lemma row_changes_refl req r : row_changes req r r.
Proof. destruct req; now left. Qed.

Lemma row_changes_ok req r r' :
  row_changes req r r' -> face_ok r = true -> face_ok r' = true.
Proof.
  destruct req; cbn [row_changes]; intros [-> | H] Hok; try assumption.
  - now subst r'.
  - destruct H as [_ ->]. reflexivity.
  - destruct H as [_ ->]. reflexivity.
  - now subst r'.
Qed.

Lemma Forall2_map_right {A} (R : A -> A -> Prop) (g : A -> A) l :
  (forall x, R x (g x)) -> Forall2 R l (map g l).
Proof. intros H. induction l; simpl; constructor; auto. Qed.

Lemma Forall2_same {A} (R : A -> A -> Prop) l :
  (forall x, R x x) -> Forall2 R l l.
Proof. intros H. induction l; constructor; auto. Qed.

Lemma forallb_Forall2 {A} (R : A -> A -> Prop) (f : A -> bool) l l' :
  (forall x y, R x y -> f x = true -> f y = true) ->
  Forall2 R l l' -> forallb f l = true -> forallb f l' = true.
Proof.
  intros H HR. induction HR as [|x y l l' Hxy _ IH]; [reflexivity |].
  simpl. rewrite !andb_true_iff. intros [Hx Hl]. split; [now apply (H x) | now apply IH].
Qed.

(** C4: each of delete-person, verify-on-photo, batch-verify and unlink
    preserves the FaceRecord invariant, whatever the collaborators do; a
    verifying call rewrites only rows of the given person, to verified with
    confidence 1.0, and an unlinking call clears [verified] on every row
    whose [person_id] it clears. *)
Theorem handlers_preserve_face_invariant env req w :
  store_ok w = true ->
  store_ok (snd (handle env req w)) = true
  /\ Forall2 (row_changes req) (photo_faces w) (photo_faces (snd (handle env req w))).
Proof.
  intros Hok.
  assert (HR : Forall2 (row_changes req) (photo_faces w)
                       (photo_faces (snd (handle env req w)))).
  { destruct (photo_faces_handle env req w) as [-> | ->].
    - apply Forall2_same. apply row_changes_refl.
    - apply Forall2_map_right. apply row_map_changes. }
  split; [| exact HR].
  unfold store_ok in *.
  exact (forallb_Forall2 (row_changes req) face_ok _ _ (row_changes_ok req) HR Hok).
Qed.

Lemma handlers_preserve_face_invariant_witness :
  store_ok sample_world = true
  /\ store_ok (snd (handle healthy (VerifyOnPhoto "alice" "ph1") sample_world)) = true.
Proof.
  assert (H : store_ok sample_world = true) by reflexivity.
  split; [exact H |].
  exact (proj1 (handlers_preserve_face_invariant healthy
                  (VerifyOnPhoto "alice" "ph1") sample_world H)).
Defined.

(** * Unlink (C5, C6) *)




(** C6, counterexample: no face of the store lies on photo ph9, and
    unlinking Alice from it returns success. *)
Lemma unlink_unknown_face_succeeds : ~ unlink_unknown_face_is_404.
Proof.
  intros H.
  destruct (H "alice" "ph9" sample_world) as [detail Hd].
  - intros r Hin. simpl in Hin.
    destruct Hin as [<- | [<- | [<- | []]]]; discriminate.
  - vm_compute in Hd. discriminate Hd.
Qed.

(** C6, as amended: unlink never answers 404; with a reachable store, when
    no face record on the photo is linked to the person (the face is
    unknown or already unassigned) the call succeeds as a no-op with
    [unlinked_count = 0]: the tables are unchanged and no rebuild is
    called. *)
Theorem unlink_without_link_is_noop env p ph w :
  connect_error env = None ->
  query_error env = None ->
  (forall r, In r (photo_faces w) -> ~ linked p ph r) ->
  (forall env' p' ph' w' detail,
     fst (unlink_person_from_photo env' p' ph' w') <> Raise (HTTPException 404 detail))
  /\ fst (unlink_person_from_photo env p ph w)
     = Return (success_data "unlinked_count" (JNum 0))
  /\ photo_faces (snd (unlink_person_from_photo env p ph w)) = photo_faces w
  /\ people (snd (unlink_person_from_photo env p ph w)) = people w
  /\ rebuild_calls (snd (unlink_person_from_photo env p ph w)) = rebuild_calls w.
Proof.
  intros Hc Hq Hno. split.
  - intros env' p' ph' w' detail.
    rewrite unlink_person_from_photo_eq. cbv zeta.
    destruct (store_error env'); [discriminate |].
    destruct (existsb _ _); [| discriminate].
    unfold rebuild_then. destruct (rebuild_error env'); discriminate.
  - rewrite unlink_person_from_photo_eq. unfold store_error. rewrite Hc, Hq.
    cbv zeta. pose proof (no_link_existsb _ _ _ Hno) as Hex. rewrite Hex.
    pose proof (existsb_false_filter _ _ Hex) as Hnil.
    cbn [fst snd]. rewrite rebuild_calls_after_update.
    cbn [after_update photo_faces people]. rewrite Hnil.
    repeat split.
    apply update_no_match. exact Hnil.
Qed.

Lemma unlink_without_link_is_noop_witness :
  connect_error healthy = None
  /\ query_error healthy = None
  /\ (forall r, In r (photo_faces sample_world) -> ~ linked "alice" "ph9" r)
  /\ fst (unlink_person_from_photo healthy "alice" "ph9" sample_world)
     = Return (success_data "unlinked_count" (JNum 0)).
Proof.
  assert (Hno : forall r, In r (photo_faces sample_world) -> ~ linked "alice" "ph9" r).
  { intros r Hin [_ Hph]. simpl in Hin.
    destruct Hin as [<- | [<- | [<- | []]]]; discriminate Hph. }
  split; [reflexivity |]. split; [reflexivity |]. split; [exact Hno |].
  exact (proj1 (proj2 (unlink_without_link_is_noop healthy "alice" "ph9" sample_world
                         eq_refl eq_refl Hno))).
Defined.

(** A face on the photo that is already unassigned: unlink is a no-op. *)
Example unlink_unassigned_run :
  unlink_person_from_photo healthy "bob" "ph1" sample_world =
  (Return (success_data "unlinked_count" (JNum 0)),
   mkWorld (photo_faces sample_world) (people sample_world)
           [Statement (unlink_query "bob" "ph1")]).
Proof. reflexivity. Qed.

(** * Batch verification: count and skipped photos (C7, C10) *)

(** With every collaborator well, a batch call returns the number of rows
    its statement addresses, leaves the table as the statement leaves it and
    rebuilds once when that number is not zero.  The empty list fits in: its
    statement would address no row. *)
Lemma batch_verify_healthy env p phs w :
  connect_error env = None ->
  query_error env = None ->
  rebuild_error env = None ->
  fst (batch_verify_person_on_photos env p phs w)
  = Return (success_data "verified_count"
              (JNum (length (filter (linked_anyb p phs) (photo_faces w)))))
  /\ photo_faces (snd (batch_verify_person_on_photos env p phs w))
     = map (update_row (batch_verify_query p phs)) (photo_faces w)
  /\ rebuild_calls (snd (batch_verify_person_on_photos env p phs w))
     = rebuild_calls w
       + (if existsb (linked_anyb p phs) (photo_faces w) then 1 else 0).
Proof.
  intros Hc Hq Hr.
  rewrite batch_verify_person_on_photos_eq, Hc.
  destruct phs as [|ph0 phs].
  - pose proof (no_row_on_empty_list p (photo_faces w)) as Hex.
    pose proof (existsb_false_filter _ _ Hex) as Hnil.
    rewrite Hex, Hnil. cbn [fst snd length].
    repeat split; [| lia].
    symmetry. apply update_no_match. exact Hnil.
  - rewrite Hq. cbv zeta.
    destruct (existsb (linked_anyb p (ph0 :: phs)) (photo_faces w)).
    + rewrite snd_rebuild_then, (fst_rebuild_then_returns _ _ _ Hr),
        rebuild_calls_after_rebuild, rebuild_calls_after_update.
      repeat split. lia.
    + cbn [fst snd]. rewrite rebuild_calls_after_update.
      repeat split. lia.
Qed.


Lemma batch_no_row_on_empty_list p t :
  map (update_row (batch_verify_query p [])) t = t.
Proof.
  apply update_no_match. cbn [upd_where batch_verify_query].
  apply (existsb_false_filter (linked_anyb p [])). apply no_row_on_empty_list.
Qed.

Lemma photo_faces_batch env p phs w :
  photo_faces (snd (batch_verify_person_on_photos env p phs w))
  = match store_error env with
    | Some _ => photo_faces w
    | None => map (update_row (batch_verify_query p phs)) (photo_faces w)
    end.
Proof.
  rewrite batch_verify_person_on_photos_eq. unfold store_error.
  destruct (connect_error env); [reflexivity |].
  destruct phs as [|ph0 phs].
  - cbn [snd]. rewrite batch_no_row_on_empty_list. now destruct (query_error env).
  - destruct (query_error env); [reflexivity |]. cbv zeta.
    destruct (existsb _ _); [now rewrite photo_faces_rebuild_then | reflexivity].
Qed.

Lemma rebuild_calls_batch env p phs w :
  rebuild_calls (snd (batch_verify_person_on_photos env p phs w))
  = rebuild_calls w
    + match store_error env with
      | Some _ => 0
      | None => if existsb (linked_anyb p phs) (photo_faces w) then 1 else 0
      end.
Proof.
  rewrite batch_verify_person_on_photos_eq. unfold store_error.
  destruct (connect_error env); [cbn [snd]; lia |].
  destruct phs as [|ph0 phs].
  - cbn [snd]. rewrite no_row_on_empty_list. destruct (query_error env); lia.
  - destruct (query_error env); [cbn [snd]; lia |]. cbv zeta.
    destruct (existsb _ _).
    + rewrite snd_rebuild_then, rebuild_calls_after_rebuild, rebuild_calls_after_update.
      lia.
    + cbn [snd]. rewrite rebuild_calls_after_update. lia.
Qed.

Lemma update_row_verified_by (selb : FaceRecord -> bool) (sel : FaceRecord -> Prop) c r :
  (forall x, eval_cond c x = selb x) ->
  (forall x, selb x = true <-> sel x) ->
  verified_by sel r (update_row (mkUpdate set_verified_true c) r).
Proof.
  intros Hc Hsel. unfold update_row, verified_by. cbn [upd_where upd_set].
  rewrite Hc. destruct (selb r) eqn:E.
  - split; [reflexivity |]. intros Hn. elim Hn. now apply Hsel.
  - split; [| reflexivity]. intros Hs. apply Hsel in Hs. congruence.
Qed.




(** C10: once the connection is up, batch-verify over the empty list
    returns [verified_count = 0] at once: the world is the one it started
    in, no UPDATE has run and no rebuild has been called. *)
Theorem batch_verify_empty_list env p w :
  connect_error env = None ->
  batch_verify_person_on_photos env p [] w
  = (Return (success_data "verified_count" (JNum 0)), w).
Proof.
  intros Hc. rewrite batch_verify_person_on_photos_eq, Hc. reflexivity.
Qed.

Lemma batch_verify_empty_list_witness :
  connect_error index_down = None
  /\ batch_verify_person_on_photos index_down "alice" [] sample_world
     = (Return (success_data "verified_count" (JNum 0)), sample_world).
Proof.
  split; [reflexivity |].
  exact (batch_verify_empty_list index_down "alice" sample_world eq_refl).
Defined.

(** * Not found (C8, C9) *)

Lemma has_person_absent p t :
  (forall q, In q t -> p_id q <> p) -> has_person p t = false.
Proof.
  intros H. unfold has_person.
  destruct (existsb _ t) eqn:E; [| reflexivity].
  apply existsb_exists in E. destruct E as [q [Hin Hq]].
  apply String.eqb_eq in Hq. now elim (H q Hin).
Qed.

(** C8: with a reachable store, delete-person for an id that is not in
    [people] answers 404 and leaves the world as it found it: no table
    changes and no rebuild is called. *)
Theorem delete_absent_person_is_404 env p w :
  connect_error env = None ->
  query_error env = None ->
  (forall q, In q (people w) -> p_id q <> p) ->
  delete_person env p w
  = (Raise (HTTPException 404 ("Person " ++ p ++ " not found")), w).
Proof.
  intros Hc Hq Habs.
  rewrite delete_person_eq. unfold store_error. rewrite Hc, Hq.
  now rewrite (has_person_absent _ _ Habs).
Qed.

Lemma delete_absent_person_is_404_witness :
  connect_error healthy = None
  /\ query_error healthy = None
  /\ (forall q, In q (people sample_world) -> p_id q <> "carol")
  /\ delete_person healthy "carol" sample_world
     = (Raise (HTTPException 404 "Person carol not found"), sample_world).
Proof.
  assert (Habs : forall q, In q (people sample_world) -> p_id q <> "carol").
  { intros q Hin. simpl in Hin. destruct Hin as [<- | [<- | []]]; discriminate. }
  split; [reflexivity |]. split; [reflexivity |]. split; [exact Habs |].
  exact (delete_absent_person_is_404 healthy "carol" sample_world eq_refl eq_refl Habs).
Defined.

Lemma linked_anyb_single p ph r : linked_anyb p [ph] r = linkedb p ph r.
Proof.
  unfold linked_anyb, linkedb. cbn [eval_cond mem existsb].
  now rewrite orb_false_r.
Qed.

(** C9: with a reachable store, verify-on-photo for a person who has no
    face record on the photo answers 404, changes no row and calls no
    rebuild, where batch-verify over that one photo returns success with
    [verified_count = 0]. *)
Theorem verify_without_face_is_404 env p ph w :
  connect_error env = None ->
  query_error env = None ->
  (forall r, In r (photo_faces w) -> ~ linked p ph r) ->
  fst (verify_person_on_photo env p ph w)
  = Raise (HTTPException 404 ("Face not found for person " ++ p ++ " on photo " ++ ph))
  /\ photo_faces (snd (verify_person_on_photo env p ph w)) = photo_faces w
  /\ people (snd (verify_person_on_photo env p ph w)) = people w
  /\ rebuild_calls (snd (verify_person_on_photo env p ph w)) = rebuild_calls w
  /\ fst (batch_verify_person_on_photos env p [ph] w)
     = Return (success_data "verified_count" (JNum 0)).
Proof.
  intros Hc Hq Hno.
  pose proof (no_link_existsb _ _ _ Hno) as Hex.
  pose proof (existsb_false_filter _ _ Hex) as Hnil.
  rewrite verify_person_on_photo_eq, batch_verify_person_on_photos_eq.
  unfold store_error. rewrite Hc, Hq, Hex. cbv zeta.
  rewrite (existsb_filter (linked_anyb p [ph])).
  rewrite (filter_ext _ _ (linked_anyb_single p ph)), Hnil.
  cbn [fst snd length Nat.eqb negb]. rewrite rebuild_calls_after_update.
  cbn [after_update photo_faces people length].
  repeat split.
  apply update_no_match. exact Hnil.
Qed.

Lemma verify_without_face_is_404_witness :
  connect_error healthy = None
  /\ query_error healthy = None
  /\ (forall r, In r (photo_faces sample_world) -> ~ linked "bob" "ph1" r)
  /\ fst (verify_person_on_photo healthy "bob" "ph1" sample_world)
     = Raise (HTTPException 404 "Face not found for person bob on photo ph1").
Proof.
  assert (Hno : forall r, In r (photo_faces sample_world) -> ~ linked "bob" "ph1" r).
  { intros r Hin [Hp Hph]. simpl in Hin.
    destruct Hin as [<- | [<- | [<- | []]]]; discriminate. }
  split; [reflexivity |]. split; [reflexivity |]. split; [exact Hno |].
  exact (proj1 (verify_without_face_is_404 healthy "bob" "ph1" sample_world
                  eq_refl eq_refl Hno)).
Defined.

(** * The handlers beyond the claims *)

(** ** The table and the rebuild count after each call *)

Lemma photo_faces_verify env p ph w :
  photo_faces (snd (verify_person_on_photo env p ph w))
  = match store_error env with
    | Some _ => photo_faces w
    | None => map (update_row (verify_query p ph)) (photo_faces w)
    end.
Proof.
  rewrite verify_person_on_photo_eq.
  destruct (store_error env); [reflexivity |].
  destruct (existsb _ _); [now rewrite photo_faces_rebuild_then | reflexivity].
Qed.

Lemma photo_faces_unlink env p ph w :
  photo_faces (snd (unlink_person_from_photo env p ph w))
  = match store_error env with
    | Some _ => photo_faces w
    | None => map (update_row (unlink_query p ph)) (photo_faces w)
    end.
Proof.
  rewrite unlink_person_from_photo_eq. cbv zeta.
  destruct (store_error env); [reflexivity |].
  destruct (existsb _ _); [now rewrite photo_faces_rebuild_then | reflexivity].
Qed.

Lemma people_rebuild_then env body w :
  people (snd (rebuild_then env body w)) = people w.
Proof. now rewrite snd_rebuild_then. Qed.

Lemma people_verify env p ph w :
  people (snd (verify_person_on_photo env p ph w)) = people w.
Proof.
  rewrite verify_person_on_photo_eq.
  destruct (store_error env); [reflexivity |].
  destruct (existsb _ _); [now rewrite people_rebuild_then | reflexivity].
Qed.

Lemma people_unlink env p ph w :
  people (snd (unlink_person_from_photo env p ph w)) = people w.
Proof.
  rewrite unlink_person_from_photo_eq. cbv zeta.
  destruct (store_error env); [reflexivity |].
  destruct (existsb _ _); [now rewrite people_rebuild_then | reflexivity].
Qed.

Lemma people_batch env p phs w :
  people (snd (batch_verify_person_on_photos env p phs w)) = people w.
Proof.
  rewrite batch_verify_person_on_photos_eq.
  destruct (connect_error env); [reflexivity |].
  destruct phs as [|ph0 phs]; [reflexivity |].
  destruct (query_error env); [reflexivity |]. cbv zeta.
  destruct (existsb _ _); [now rewrite people_rebuild_then | reflexivity].
Qed.

Lemma rebuild_calls_verify env p ph w :
  rebuild_calls (snd (verify_person_on_photo env p ph w))
  = rebuild_calls w
    + match store_error env with
      | Some _ => 0
      | None => if existsb (linkedb p ph) (photo_faces w) then 1 else 0
      end.
Proof.
  rewrite verify_person_on_photo_eq.
  destruct (store_error env); [cbn [snd]; lia |].
  destruct (existsb _ _).
  - rewrite snd_rebuild_then, rebuild_calls_after_rebuild, rebuild_calls_after_update.
    lia.
  - cbn [snd]. rewrite rebuild_calls_after_update. lia.
Qed.

(** ** Statements and the columns they read *)

(** A WHERE clause reads [person_id] and [photo_id] only, so a SET clause
    that keeps [person_id] does not change which rows it selects. *)
Lemma eval_cond_apply_set c a r :
  set_person_id a = None -> eval_cond c (apply_set a r) = eval_cond c r.
Proof.
  intros Ha. induction c as [p | ph | phs | c1 IH1 c2 IH2]; cbn [eval_cond].
  - unfold apply_set. cbn [person_id]. now rewrite Ha.
  - reflexivity.
  - reflexivity.
  - now rewrite IH1, IH2.
Qed.

Lemma eval_cond_update_row c u r :
  set_person_id (upd_set u) = None ->
  eval_cond c (update_row u r) = eval_cond c r.
Proof.
  intros Hu. unfold update_row.
  destruct (eval_cond (upd_where u) r); [now apply eval_cond_apply_set | reflexivity].
Qed.

Lemma filter_map_same {A} (f : A -> bool) (g : A -> A) l :
  (forall x, f (g x) = f x) -> filter f (map g l) = map g (filter f l).
Proof.
  intros H. induction l as [|a l IH]; [reflexivity |].
  simpl. rewrite H. destruct (f a); simpl; now rewrite IH.
Qed.

Lemma count_after_update c u t :
  set_person_id (upd_set u) = None ->
  length (filter (eval_cond c) (map (update_row u) t)) = length (filter (eval_cond c) t).
Proof.
  intros Hu. rewrite filter_map_same; [apply length_map |].
  intros r. now apply eval_cond_update_row.
Qed.

Lemma existsb_after_update c u t :
  set_person_id (upd_set u) = None ->
  existsb (eval_cond c) (map (update_row u) t) = existsb (eval_cond c) t.
Proof. intros Hu. now rewrite !existsb_filter, count_after_update. Qed.

(** A verifying statement run twice is the statement run once. *)
Lemma update_row_verified_twice c r :
  update_row (mkUpdate set_verified_true c) (update_row (mkUpdate set_verified_true c) r)
  = update_row (mkUpdate set_verified_true c) r.
Proof.
  set (u := mkUpdate set_verified_true c).
  assert (Hc : eval_cond (upd_where u) (update_row u r) = eval_cond (upd_where u) r)
    by now apply eval_cond_update_row.
  unfold update_row at 1. rewrite Hc.
  destruct (eval_cond (upd_where u) r) eqn:E; [| reflexivity].
  unfold update_row. rewrite E. reflexivity.
Qed.

(** After the unlinking statement no row is a face of the person on the
    photo. *)
Lemma unlinked_rows_not_linked p ph t r :
  In r (map (update_row (unlink_query p ph)) t) -> ~ linked p ph r.
Proof.
  rewrite in_map_iff. intros [r0 [<- _]] Hl.
  unfold update_row in Hl. cbn [upd_where upd_set unlink_query] in Hl.
  fold (linkedb p ph r0) in Hl.
  destruct (linkedb p ph r0) eqn:E.
  - destruct Hl as [Hp _]. discriminate Hp.
  - apply linkedb_iff in Hl. congruence.
Qed.


(** ** What a response depends on *)

Lemma fst_verify_ext env p ph w w' :
  existsb (linkedb p ph) (photo_faces w') = existsb (linkedb p ph) (photo_faces w) ->
  fst (verify_person_on_photo env p ph w') = fst (verify_person_on_photo env p ph w).
Proof.
  intros H. rewrite !verify_person_on_photo_eq, H. clear H.
  destruct (store_error env); [reflexivity |].
  destruct (existsb _ _); [| reflexivity].
  unfold rebuild_then. destruct (rebuild_error env); reflexivity.
Qed.


Lemma fst_batch_ext env p phs phs' w w' :
  (phs = [] <-> phs' = []) ->
  length (filter (linked_anyb p phs') (photo_faces w'))
  = length (filter (linked_anyb p phs) (photo_faces w)) ->
  fst (batch_verify_person_on_photos env p phs' w')
  = fst (batch_verify_person_on_photos env p phs w).
Proof.
  intros Hnil H. rewrite !batch_verify_person_on_photos_eq. cbv zeta.
  rewrite !existsb_filter, H. clear H.
  destruct (connect_error env); [reflexivity |].
  destruct phs as [|a phs], phs' as [|a' phs'].
  - reflexivity.
  - destruct Hnil as [Hnil _]. discriminate (Hnil eq_refl).
  - destruct Hnil as [_ Hnil]. discriminate (Hnil eq_refl).
  - destruct (query_error env); [reflexivity |].
    destruct (negb _); [| reflexivity].
    unfold rebuild_then. destruct (rebuild_error env); reflexivity.
Qed.

(** ** Store failures *)

(** X1: when [db.connect()] or the UPDATE raises, verify-on-photo, unlink
    and batch-verify over a non-empty list answer HTTP 500 with the
    exception's message and leave the world as it was: nothing is written
    and no rebuild is called. *)
Theorem store_failure_changes_nothing env p ph phs w m :
  store_error env = Some m ->
  phs <> [] ->
  verify_person_on_photo env p ph w = (Raise (HTTPException 500 m), w)
  /\ batch_verify_person_on_photos env p phs w = (Raise (HTTPException 500 m), w)
  /\ unlink_person_from_photo env p ph w = (Raise (HTTPException 500 m), w).
Proof.
  intros Hm Hne.
  rewrite verify_person_on_photo_eq, unlink_person_from_photo_eq,
    batch_verify_person_on_photos_eq, Hm.
  repeat split.
  unfold store_error in Hm.
  destruct (connect_error env); [now inversion Hm |].
  destruct phs as [|ph0 phs]; [now elim Hne |].
  now rewrite Hm.
Qed.

Lemma store_failure_changes_nothing_witness :
  store_error (mkEnv None (Some "connection lost") None) = Some "connection lost"
  /\ ["ph1"] <> []
  /\ batch_verify_person_on_photos (mkEnv None (Some "connection lost") None)
       "alice" ["ph1"] sample_world
     = (Raise (HTTPException 500 "connection lost"), sample_world).
Proof.
  assert (Hne : ["ph1"] <> @nil string) by discriminate.
  split; [reflexivity |]. split; [exact Hne |].
  exact (proj1 (proj2 (store_failure_changes_nothing
                         (mkEnv None (Some "connection lost") None)
                         "alice" "ph1" ["ph1"] sample_world "connection lost"
                         eq_refl Hne))).
Defined.

(** ** Repeating and composing calls *)

(** X2: verifying is idempotent on the store.  Once a verify-on-photo (or
    a batch-verify) has reached the store, a later call with the same
    arguments leaves the table as the first call left it and answers what
    it would have answered without the first call, whatever the
    collaborators do in the later call: they need not behave as they did in
    the first. *)
Theorem verify_is_idempotent env1 env2 p ph phs w :
  store_error env1 = None ->
  (fst (verify_person_on_photo env2 p ph (snd (verify_person_on_photo env1 p ph w)))
   = fst (verify_person_on_photo env2 p ph w)
   /\ photo_faces (snd (verify_person_on_photo env2 p ph
                          (snd (verify_person_on_photo env1 p ph w))))
      = photo_faces (snd (verify_person_on_photo env1 p ph w)))
  /\ (fst (batch_verify_person_on_photos env2 p phs
             (snd (batch_verify_person_on_photos env1 p phs w)))
      = fst (batch_verify_person_on_photos env2 p phs w)
      /\ photo_faces (snd (batch_verify_person_on_photos env2 p phs
                             (snd (batch_verify_person_on_photos env1 p phs w))))
         = photo_faces (snd (batch_verify_person_on_photos env1 p phs w))).
Proof.
  intros Hs. split; split.
  - apply fst_verify_ext. rewrite photo_faces_verify, Hs.
    now apply (existsb_after_update (upd_where (verify_query p ph))).
  - rewrite !photo_faces_verify, Hs.
    destruct (store_error env2); [reflexivity |].
    rewrite map_map. apply map_ext. intros r. apply update_row_verified_twice.
  - apply fst_batch_ext; [reflexivity |]. rewrite photo_faces_batch, Hs.
    now apply (count_after_update (upd_where (batch_verify_query p phs))).
  - rewrite !photo_faces_batch, Hs.
    destruct (store_error env2); [reflexivity |].
    rewrite map_map. apply map_ext. intros r. apply update_row_verified_twice.
Qed.

Lemma verify_is_idempotent_witness :
  store_error index_down = None
  /\ fst (verify_person_on_photo healthy "alice" "ph1"
            (snd (verify_person_on_photo index_down "alice" "ph1" sample_world)))
     = Return (success_data "verified" (JBool true))
  /\ photo_faces (snd (verify_person_on_photo (mkEnv None (Some "connection lost") None)
                         "alice" "ph1"
                         (snd (verify_person_on_photo index_down "alice" "ph1"
                                 sample_world))))
     = [alice_verified; stranger; bob_verified].
Proof.
  split; [reflexivity |]. split.
  - rewrite (proj1 (proj1 (verify_is_idempotent index_down healthy "alice" "ph1" []
                             sample_world eq_refl))).
    reflexivity.
  - rewrite (proj2 (proj1 (verify_is_idempotent index_down
                             (mkEnv None (Some "connection lost") None)
                             "alice" "ph1" [] sample_world eq_refl))).
    reflexivity.
Defined.

Lemma verify_no_link_eq env p ph w :
  store_error env = None ->
  (forall r, In r (photo_faces w) -> ~ linked p ph r) ->
  verify_person_on_photo env p ph w
  = (Raise (HTTPException 404
              ("Face not found for person " ++ p ++ " on photo " ++ ph)),
     mkWorld (photo_faces w) (people w) (trace w ++ [Statement (verify_query p ph)])).
Proof.
  intros Hs Hno.
  pose proof (no_link_existsb _ _ _ Hno) as Hex.
  rewrite verify_person_on_photo_eq, Hs, Hex. unfold after_update.
  rewrite update_no_match; [reflexivity |].
  now apply (existsb_false_filter (linkedb p ph)).
Qed.

Lemma unlink_no_link_eq env p ph w :
  store_error env = None ->
  (forall r, In r (photo_faces w) -> ~ linked p ph r) ->
  unlink_person_from_photo env p ph w
  = (Return (success_data "unlinked_count" (JNum 0)),
     mkWorld (photo_faces w) (people w) (trace w ++ [Statement (unlink_query p ph)])).
Proof.
  intros Hs Hno.
  pose proof (no_link_existsb _ _ _ Hno) as Hex.
  pose proof (existsb_false_filter _ _ Hex) as Hnil.
  rewrite unlink_person_from_photo_eq, Hs, Hex. cbv zeta. rewrite Hnil.
  unfold after_update. rewrite update_no_match; [reflexivity | exact Hnil].
Qed.

(** X3: with a reachable store, once a person has been unlinked from a
    photo, verify-on-photo for the same pair answers 404 and a second unlink
    is a no-op that returns [unlinked_count = 0]; neither changes a row nor
    calls a rebuild. *)
Theorem unlink_then_verify_is_404 env p ph w :
  store_error env = None ->
  fst (verify_person_on_photo env p ph (snd (unlink_person_from_photo env p ph w)))
  = Raise (HTTPException 404 ("Face not found for person " ++ p ++ " on photo " ++ ph))
  /\ fst (unlink_person_from_photo env p ph (snd (unlink_person_from_photo env p ph w)))
     = Return (success_data "unlinked_count" (JNum 0))
  /\ photo_faces (snd (verify_person_on_photo env p ph
                         (snd (unlink_person_from_photo env p ph w))))
     = photo_faces (snd (unlink_person_from_photo env p ph w))
  /\ photo_faces (snd (unlink_person_from_photo env p ph
                         (snd (unlink_person_from_photo env p ph w))))
     = photo_faces (snd (unlink_person_from_photo env p ph w))
  /\ rebuild_calls (snd (verify_person_on_photo env p ph
                           (snd (unlink_person_from_photo env p ph w))))
     = rebuild_calls (snd (unlink_person_from_photo env p ph w))
  /\ rebuild_calls (snd (unlink_person_from_photo env p ph
                           (snd (unlink_person_from_photo env p ph w))))
     = rebuild_calls (snd (unlink_person_from_photo env p ph w)).
Proof.
  intros Hs.
  set (w1 := snd (unlink_person_from_photo env p ph w)).
  assert (Hno : forall r, In r (photo_faces w1) -> ~ linked p ph r).
  { intros r. unfold w1. rewrite photo_faces_unlink, Hs.
    apply unlinked_rows_not_linked. }
  rewrite (verify_no_link_eq env p ph w1 Hs Hno).
  rewrite (unlink_no_link_eq env p ph w1 Hs Hno).
  cbn [fst snd photo_faces]. repeat split.
  - apply (rebuild_calls_after_update (verify_query p ph) w1).
  - apply (rebuild_calls_after_update (unlink_query p ph) w1).
Qed.

Lemma unlink_then_verify_is_404_witness :
  store_error healthy = None
  /\ fst (verify_person_on_photo healthy "bob" "ph2"
            (snd (unlink_person_from_photo healthy "bob" "ph2" sample_world)))
     = Raise (HTTPException 404 "Face not found for person bob on photo ph2").
Proof.
  split; [reflexivity |].
  exact (proj1 (unlink_then_verify_is_404 healthy "bob" "ph2" sample_world eq_refl)).
Defined.


(** ** What the UPDATE handlers never touch *)

Lemma update_row_keys u r :
  face_id (update_row u r) = face_id r /\ photo_id (update_row u r) = photo_id r.
Proof. unfold update_row. destruct (eval_cond _ r); now split. Qed.

Lemma update_row_person u r :
  set_person_id (upd_set u) = None -> person_id (update_row u r) = person_id r.
Proof.
  intros Hu. unfold update_row. destruct (eval_cond _ r); [| reflexivity].
  unfold apply_set. cbn [person_id]. now rewrite Hu.
Qed.

Lemma keeps_shape_update u w w' :
  people w' = people w ->
  photo_faces w' = photo_faces w
  \/ photo_faces w' = map (update_row u) (photo_faces w) ->
  keeps_shape w w'.
Proof.
  intros Hp H. unfold keeps_shape. destruct H as [-> | ->]; [now repeat split |].
  rewrite !map_map. repeat split; try assumption;
    apply map_ext; intros r; apply update_row_keys.
Qed.

(** X5: whatever the collaborators do, verify-on-photo, batch-verify and
    unlink neither add, drop nor reorder rows of [photo_faces], never change
    a row's id or photo, and never touch [people]; the two verifying
    handlers also never change a row's person. *)
Theorem update_handlers_keep_rows env p ph phs w :
  keeps_shape w (snd (verify_person_on_photo env p ph w))
  /\ keeps_shape w (snd (batch_verify_person_on_photos env p phs w))
  /\ keeps_shape w (snd (unlink_person_from_photo env p ph w))
  /\ map person_id (photo_faces (snd (verify_person_on_photo env p ph w)))
     = map person_id (photo_faces w)
  /\ map person_id (photo_faces (snd (batch_verify_person_on_photos env p phs w)))
     = map person_id (photo_faces w).
Proof.
  split; [| split; [| split; [| split]]].
  - apply (keeps_shape_update (verify_query p ph)); [apply people_verify |].
    rewrite photo_faces_verify. destruct (store_error env); auto.
  - apply (keeps_shape_update (batch_verify_query p phs)); [apply people_batch |].
    rewrite photo_faces_batch. destruct (store_error env); auto.
  - apply (keeps_shape_update (unlink_query p ph)); [apply people_unlink |].
    rewrite photo_faces_unlink. destruct (store_error env); auto.
  - rewrite photo_faces_verify. destruct (store_error env); [reflexivity |].
    rewrite map_map. apply map_ext. intros r. now apply update_row_person.
  - rewrite photo_faces_batch. destruct (store_error env); [reflexivity |].
    rewrite map_map. apply map_ext. intros r. now apply update_row_person.
Qed.

(** X6: with a reachable store, and whether or not the rebuild raises,
    verify-on-photo marks exactly the face records of the person on the
    photo as verified with confidence 1.0, and batch-verify exactly those of
    the person on a listed photo; each keeps its id, photo and person, and
    every other row is left as it was. *)
Theorem verify_marks_linked_rows env p ph phs w :
  store_error env = None ->
  Forall2 (verified_by (linked p ph)) (photo_faces w)
          (photo_faces (snd (verify_person_on_photo env p ph w)))
  /\ Forall2 (verified_by (linked_any p phs)) (photo_faces w)
             (photo_faces (snd (batch_verify_person_on_photos env p phs w))).
Proof.
  intros Hs. rewrite photo_faces_verify, photo_faces_batch, Hs. split.
  - apply Forall2_map_right. intros r.
    apply (update_row_verified_by (linkedb p ph)); [reflexivity |].
    intros x. apply linkedb_iff.
  - apply Forall2_map_right. intros r.
    apply (update_row_verified_by (linked_anyb p phs)); [reflexivity |].
    intros x. apply linked_anyb_iff.
Qed.

Lemma verify_marks_linked_rows_witness :
  store_error index_down = None
  /\ Forall2 (verified_by (linked "alice" "ph1")) (photo_faces sample_world)
             (photo_faces (snd (verify_person_on_photo index_down "alice" "ph1"
                                  sample_world))).
Proof.
  split; [reflexivity |].
  exact (proj1 (verify_marks_linked_rows index_down "alice" "ph1" [] sample_world
                  eq_refl)).
Defined.

(** ** Batch verification and its list of photos *)

Lemma linked_anyb_same_members p phs phs' r :
  (forall x, In x phs <-> In x phs') ->
  linked_anyb p phs' r = linked_anyb p phs r.
Proof.
  intros H. apply eq_true_iff_eq. rewrite !linked_anyb_iff. unfold linked_any.
  now rewrite H.
Qed.

Lemma update_row_batch_ext p phs phs' r :
  linked_anyb p phs' r = linked_anyb p phs r ->
  update_row (batch_verify_query p phs') r = update_row (batch_verify_query p phs) r.
Proof.
  intros H. unfold update_row. cbn [upd_where upd_set batch_verify_query].
  fold (linked_anyb p phs r). fold (linked_anyb p phs' r). now rewrite H.
Qed.

(** X7: whatever the collaborators do, batch-verify over a one-photo list
    writes the table that verify-on-photo writes and calls the rebuild as
    often; and whenever verify-on-photo succeeds, so does the batch. *)
Theorem batch_of_one_photo env p ph w :
  photo_faces (snd (batch_verify_person_on_photos env p [ph] w))
  = photo_faces (snd (verify_person_on_photo env p ph w))
  /\ rebuild_calls (snd (batch_verify_person_on_photos env p [ph] w))
     = rebuild_calls (snd (verify_person_on_photo env p ph w))
  /\ (is_success (fst (verify_person_on_photo env p ph w)) = true ->
      is_success (fst (batch_verify_person_on_photos env p [ph] w)) = true).
Proof.
  repeat split.
  - rewrite photo_faces_batch, photo_faces_verify.
    destruct (store_error env); [reflexivity |].
    apply map_ext. intros r. unfold update_row.
    cbn [upd_where upd_set batch_verify_query verify_query].
    fold (linked_anyb p [ph] r). fold (linkedb p ph r).
    now rewrite linked_anyb_single.
  - rewrite rebuild_calls_batch, rebuild_calls_verify.
    destruct (store_error env); [reflexivity |].
    rewrite !existsb_filter, (filter_ext _ _ (linked_anyb_single p ph)). reflexivity.
  - rewrite verify_person_on_photo_eq, batch_verify_person_on_photos_eq.
    unfold store_error. destruct (connect_error env); [discriminate |].
    destruct (query_error env); [discriminate |]. cbv zeta.
    rewrite !existsb_filter, (filter_ext _ _ (linked_anyb_single p ph)).
    destruct (negb _); [| discriminate].
    unfold rebuild_then. destruct (rebuild_error env); [discriminate | reflexivity].
Qed.

(** X8: the list of a batch-verify is read as a set.  Two lists with the
    same members, in any order and with any repetitions, give the same
    response, the same table and the same number of rebuilds: a face record
    is counted once however often its photo is listed. *)
Theorem batch_verify_list_is_a_set env p phs phs' w :
  (forall x, In x phs <-> In x phs') ->
  fst (batch_verify_person_on_photos env p phs' w)
  = fst (batch_verify_person_on_photos env p phs w)
  /\ photo_faces (snd (batch_verify_person_on_photos env p phs' w))
     = photo_faces (snd (batch_verify_person_on_photos env p phs w))
  /\ rebuild_calls (snd (batch_verify_person_on_photos env p phs' w))
     = rebuild_calls (snd (batch_verify_person_on_photos env p phs w)).
Proof.
  intros Hmem.
  assert (Hf : filter (linked_anyb p phs') (photo_faces w)
               = filter (linked_anyb p phs) (photo_faces w)).
  { apply filter_ext. intros r. now apply linked_anyb_same_members. }
  repeat split.
  - apply fst_batch_ext; [| now rewrite Hf].
    split; intros ->.
    + destruct phs' as [|a l]; [reflexivity |].
      destruct (proj2 (Hmem a) (or_introl eq_refl)).
    + destruct phs as [|a l]; [reflexivity |].
      destruct (proj1 (Hmem a) (or_introl eq_refl)).
  - rewrite !photo_faces_batch. destruct (store_error env); [reflexivity |].
    apply map_ext. intros r. apply update_row_batch_ext.
    now apply linked_anyb_same_members.
  - rewrite !rebuild_calls_batch, !existsb_filter, Hf. reflexivity.
Qed.

Lemma batch_verify_list_is_a_set_witness :
  (forall x, In x ["ph1"; "ph2"] <-> In x ["ph2"; "ph1"; "ph2"])
  /\ fst (batch_verify_person_on_photos healthy "alice" ["ph2"; "ph1"; "ph2"] sample_world)
     = Return (success_data "verified_count" (JNum 1)).
Proof.
  assert (H : forall x, In x ["ph1"; "ph2"] <-> In x ["ph2"; "ph1"; "ph2"]).
  { intros x. simpl. tauto. }
  split; [exact H |].
  rewrite (proj1 (batch_verify_list_is_a_set healthy "alice" ["ph1"; "ph2"]
                    ["ph2"; "ph1"; "ph2"] sample_world H)).
  reflexivity.
Defined.



(** ** The calls one request makes *)

Lemma trace_rebuild_then env body w :
  trace (snd (rebuild_then env body w)) = trace w ++ [RebuildIndex].
Proof. now rewrite snd_rebuild_then. Qed.

Lemma trace_update_rebuild_then env body u w :
  trace (snd (rebuild_then env body (after_update u w)))
  = trace w ++ [Statement u; RebuildIndex].
Proof.
  rewrite trace_rebuild_then. cbn [after_update trace].
  now rewrite <- app_assoc.
Qed.

Ltac tail_shape :=
  split; [reflexivity |];
  split;
  [ first [ left; reflexivity
          | right; left; reflexivity
          | right; right; eexists; left; reflexivity
          | right; right; eexists; right; reflexivity ]
  | first [ left; reflexivity | right; reflexivity ] ].

(** X10: whatever the collaborators do, one request appends to the trace at
    most one UPDATE and at most one rebuild call, the rebuild after the
    UPDATE; when the store call raises it appends nothing. *)
Theorem one_request_one_update_one_rebuild env req w :
  exists tail,
    trace (snd (handle env req w)) = trace w ++ tail
    /\ one_call_tail tail
    /\ (store_error env = None \/ tail = []).
Proof.
  unfold one_call_tail.
  destruct req as [p | p ph | p phs | p ph]; cbn [handle].
  - rewrite delete_person_eq.
    destruct (store_error env).
    + exists []. cbn [snd]. rewrite app_nil_r. tail_shape.
    + destruct (has_person p (people w)).
      * exists [RebuildIndex]. rewrite trace_rebuild_then. tail_shape.
      * exists []. cbn [snd]. rewrite app_nil_r. tail_shape.
  - rewrite verify_person_on_photo_eq.
    destruct (store_error env).
    + exists []. cbn [snd]. rewrite app_nil_r. tail_shape.
    + destruct (existsb _ _).
      * exists [Statement (verify_query p ph); RebuildIndex].
        rewrite trace_update_rebuild_then. tail_shape.
      * exists [Statement (verify_query p ph)]. cbn [snd after_update trace]. tail_shape.
  - rewrite batch_verify_person_on_photos_eq. unfold store_error.
    destruct (connect_error env).
    + exists []. cbn [snd]. rewrite app_nil_r. tail_shape.
    + destruct phs as [|ph0 phs].
      * exists []. cbn [snd]. rewrite app_nil_r. tail_shape.
      * destruct (query_error env).
        -- exists []. cbn [snd]. rewrite app_nil_r. tail_shape.
        -- cbv zeta. destruct (existsb _ _).
           ++ exists [Statement (batch_verify_query p (ph0 :: phs)); RebuildIndex].
              rewrite trace_update_rebuild_then. tail_shape.
           ++ exists [Statement (batch_verify_query p (ph0 :: phs))].
              cbn [snd after_update trace]. tail_shape.
  - rewrite unlink_person_from_photo_eq. cbv zeta.
    destruct (store_error env).
    + exists []. cbn [snd]. rewrite app_nil_r. tail_shape.
    + destruct (existsb _ _).
      * exists [Statement (unlink_query p ph); RebuildIndex].
        rewrite trace_update_rebuild_then. tail_shape.
      * exists [Statement (unlink_query p ph)]. cbn [snd after_update trace]. tail_shape.
Qed.

(** ** Failures of batch-verify and unlink *)

Lemma try_except_all_as_500 {A} (body : M A) w :
  ok_or_500 (fst (try_except body all_as_500 w)).
Proof.
  unfold try_except, all_as_500, raise.
  destruct (body w) as [[a | e] w']; cbn; auto.
Qed.

(** X11: batch-verify and unlink have no error of their own.  They succeed
    whenever no collaborator raises, and every failure they answer with has
    status 500: neither ever answers 404, nor lets a bare exception out. *)
Theorem batch_and_unlink_fail_with_500_only env p ph phs w :
  ok_or_500 (fst (batch_verify_person_on_photos env p phs w))
  /\ ok_or_500 (fst (unlink_person_from_photo env p ph w))
  /\ (store_error env = None ->
      rebuild_error env = None ->
      is_success (fst (batch_verify_person_on_photos env p phs w)) = true
      /\ is_success (fst (unlink_person_from_photo env p ph w)) = true).
Proof.
  split; [apply try_except_all_as_500 |]. split; [apply try_except_all_as_500 |].
  intros Hs Hr. rewrite batch_verify_person_on_photos_eq, unlink_person_from_photo_eq.
  unfold store_error in *. destruct (connect_error env); [discriminate |].
  rewrite Hs. cbv zeta. unfold rebuild_then. rewrite Hr.
  split.
  - destruct phs; [reflexivity |]. now destruct (existsb _ _).
  - now destruct (existsb _ _).
Qed.

Lemma batch_and_unlink_fail_with_500_only_witness :
  store_error healthy = None
  /\ rebuild_error healthy = None
  /\ is_success (fst (unlink_person_from_photo healthy "bob" "ph2" sample_world)) = true
  /\ ok_or_500
       (fst (unlink_person_from_photo index_down "bob" "ph2" sample_world)).
Proof.
  split; [reflexivity |]. split; [reflexivity |]. split.
  - exact (proj2 (proj2 (proj2 (batch_and_unlink_fail_with_500_only healthy "bob" "ph2"
                                  [] sample_world)) eq_refl eq_refl)).
  - exact (proj1 (proj2 (batch_and_unlink_fail_with_500_only index_down "bob" "ph2"
                           [] sample_world))).
Defined.

(** * The photo listings *)

Example get_person_photos_run :
  get_person_photos healthy sample_catalog (fun l => l) "alice" sample_world =
  (Return (mkPhotosResponse true
             [mkPhotoRow (mkImage "ph1" "g1" "https://img/1.jpg" None (Some "a.jpg")
                                  (Some 800) (Some 600) None)
                         (Some "Open 2024") (Some "2024-05-01")]
             1),
   sample_world).
Proof. reflexivity. Qed.

Example get_person_photos_with_details_run :
  get_person_photos_with_details healthy sample_catalog (fun l => l) no_json
                                 "bob" sample_world =
  (Return (mkDetailsResponse true
             [mkPhotoDetail "ph2" "https://img/2.jpg" "g1" 0 0 "f3"
                            (Some one_point_zero) true VNull 1 "unknown"
                            (Some "Open 2024") (Some "2024-05-01") "filename" None]),
   sample_world).
Proof. reflexivity. Qed.

(** ** The join *)

Lemma In_from_join cat faces gi pf g :
  In (gi, pf, g) (from_join cat faces) <->
  In gi (gallery_images cat) /\ In pf faces /\ In g (galleries cat)
  /\ photo_id pf = gi_id gi /\ g_id g = gallery_id gi.
Proof.
  unfold from_join. rewrite in_flat_map. split.
  - intros [gi' [Hgi H]]. apply in_flat_map in H. destruct H as [pf' [Hpf H]].
    destruct (String.eqb (photo_id pf') (gi_id gi')) eqn:E; [| destruct H].
    apply in_map_iff in H. destruct H as [g' [Heq Hg]].
    inversion Heq; subst gi' pf' g'. apply filter_In in Hg. destruct Hg as [Hg Hid].
    apply String.eqb_eq in E, Hid. auto.
  - intros [Hgi [Hpf [Hg [Hph Hid]]]]. exists gi. split; [assumption |].
    apply in_flat_map. exists pf. split; [assumption |].
    apply String.eqb_eq in Hph. rewrite Hph.
    apply in_map. apply filter_In. split; [assumption |]. now apply String.eqb_eq.
Qed.

Lemma In_person_faces_join person cat faces gi pf g :
  In (gi, pf, g) (person_faces_join person cat faces) <->
  In (gi, pf, g) (from_join cat faces) /\ person_id pf = Some person.
Proof.
  unfold person_faces_join. rewrite filter_In. cbn [fst snd].
  now rewrite person_id_eq_iff.
Qed.

Lemma In_person_photo_rows person cat faces row :
  In row (person_photo_rows person cat faces) <->
  exists g, appears_on person cat faces (photo row) g
            /\ gallery_title row = title g
            /\ gallery_shoot_date row = shoot_date g.
Proof.
  unfold person_photo_rows, appears_on. rewrite nodup_In, in_map_iff. split.
  - intros [[[gi pf] g] [Hrow Hin]]. subst row.
    apply In_person_faces_join in Hin. destruct Hin as [Hin Hp].
    apply In_from_join in Hin. destruct Hin as [Hgi [Hpf [Hg [Hph Hid]]]].
    exists g. cbn [select_photo photo gallery_title gallery_shoot_date].
    repeat split; try assumption. now exists pf.
  - intros [g [[Hgi [Hg [Hid [pf [Hpf [Hph Hp]]]]]] [Ht Hd]]].
    exists (photo row, pf, g). split.
    + destruct row as [gi t d]. cbn in *. now subst.
    + apply In_person_faces_join. split; [| assumption].
      apply In_from_join. auto.
Qed.

Lemma In_person_detail_rows person cat faces row :
  In row (person_detail_rows person cat faces) <->
  exists gi pf g,
    In (gi, pf, g) (from_join cat faces)
    /\ person_id pf = Some person
    /\ row = select_detail cat faces (gi, pf, g).
Proof.
  unfold person_detail_rows. rewrite in_map_iff. split.
  - intros [[[gi pf] g] [Hrow Hin]]. apply In_person_faces_join in Hin.
    exists gi, pf, g. destruct Hin. now repeat split.
  - intros [gi [pf [g [Hin [Hp Hrow]]]]]. exists (gi, pf, g).
    split; [now symmetry |]. now apply In_person_faces_join.
Qed.

(** ** What the listing handlers compute *)

Lemma get_person_photos_eq env cat order person w :
  get_person_photos env cat order person w =
  match store_error env with
  | Some m => (Raise (HTTPException 500 m), w)
  | None =>
      (Return (mkPhotosResponse true
                 (order (person_photo_rows person cat (photo_faces w)))
                 (length (order (person_photo_rows person cat (photo_faces w))))),
       w)
  end.
Proof.
  unfold get_person_photos, try_except, bind, connect, fetch_select, all_as_500,
    raise, ret, store_error.
  destruct (connect_error env), (query_error env); reflexivity.
Qed.

Lemma get_person_photos_with_details_eq env cat order loads person w :
  get_person_photos_with_details env cat order loads person w =
  match store_error env with
  | Some m => (Raise (HTTPException 500 m), w)
  | None =>
      (Return (mkDetailsResponse true
                 (map (photo_detail loads)
                      (order (person_detail_rows person cat (photo_faces w))))),
       w)
  end.
Proof.
  unfold get_person_photos_with_details, try_except, bind, connect, fetch_select,
    all_as_500, raise, ret, store_error.
  destruct (connect_error env), (query_error env); reflexivity.
Qed.

Lemma In_order {A} (order : list A -> list A) l x :
  (forall l, Permutation l (order l)) -> In x (order l) <-> In x l.
Proof.
  intros H. split; apply Permutation_in; [apply Permutation_sym |]; apply H.
Qed.

(** X12: with a reachable store, [get_person_photos] returns success with
    [count] the length of [photos], lists no row twice, and lists exactly
    the images on which the person has a face record and whose gallery
    exists, each with its gallery's title and shoot date. *)
Theorem get_person_photos_lists env cat order person w :
  (forall l, Permutation l (order l)) ->
  store_error env = None ->
  exists photos,
    get_person_photos env cat order person w
    = (Return (mkPhotosResponse true photos (length photos)), w)
    /\ NoDup photos
    /\ forall row,
         In row photos <->
         exists g, appears_on person cat (photo_faces w) (photo row) g
                   /\ gallery_title row = title g
                   /\ gallery_shoot_date row = shoot_date g.
Proof.
  intros Hperm Hs.
  exists (order (person_photo_rows person cat (photo_faces w))).
  rewrite get_person_photos_eq, Hs. split; [reflexivity |]. split.
  - apply (Permutation_NoDup (Hperm _)). apply NoDup_nodup.
  - intros row. rewrite (In_order order _ row Hperm). apply In_person_photo_rows.
Qed.

Lemma get_person_photos_lists_witness :
  (forall l : list PhotoRow, Permutation l ((fun l => l) l))
  /\ store_error healthy = None
  /\ exists photos,
       get_person_photos healthy sample_catalog (fun l => l) "alice" sample_world
       = (Return (mkPhotosResponse true photos (length photos)), sample_world)
       /\ NoDup photos.
Proof.
  assert (Hperm : forall l : list PhotoRow, Permutation l ((fun l => l) l))
    by (intros l; apply Permutation_refl).
  split; [exact Hperm |]. split; [reflexivity |].
  destruct (get_person_photos_lists healthy sample_catalog (fun l => l) "alice"
              sample_world Hperm eq_refl) as [photos [H1 [H2 _]]].
  exists photos. split; assumption.
Defined.

Lemma NoDup_map_inj {A B} (f : A -> B) l a b :
  NoDup (map f l) -> In a l -> In b l -> f a = f b -> a = b.
Proof.
  induction l as [|x l IH]; simpl; [intros _ [] |].
  intros Hnd Ha Hb Hf. inversion Hnd as [|? ? Hx Hl]; subst.
  destruct Ha as [-> | Ha], Hb as [-> | Hb].
  - reflexivity.
  - elim Hx. rewrite Hf. now apply in_map.
  - elim Hx. rewrite <- Hf. now apply in_map.
  - now apply IH.
Qed.

Lemma listed_photos_eq env cat order person w :
  listed_photos (fst (get_person_photos env cat order person w))
  = match store_error env with
    | Some _ => []
    | None => order (person_photo_rows person cat (photo_faces w))
    end.
Proof. rewrite get_person_photos_eq. now destruct (store_error env). Qed.

Lemma listed_details_eq env cat order loads person w :
  listed_details (fst (get_person_photos_with_details env cat order loads person w))
  = match store_error env with
    | Some _ => []
    | None => map (photo_detail loads)
                  (order (person_detail_rows person cat (photo_faces w)))
    end.
Proof. rewrite get_person_photos_with_details_eq. now destruct (store_error env). Qed.

(** Rows with the same image id are the same row, when image ids and
    gallery ids are unique. *)
Lemma photo_row_by_id person cat faces r1 r2 :
  NoDup (map gi_id (gallery_images cat)) ->
  NoDup (map g_id (galleries cat)) ->
  In r1 (person_photo_rows person cat faces) ->
  In r2 (person_photo_rows person cat faces) ->
  gi_id (photo r1) = gi_id (photo r2) ->
  r1 = r2.
Proof.
  intros Hgi Hg H1 H2 Hid.
  apply In_person_photo_rows in H1, H2.
  destruct H1 as [g1 [[Hi1 [Hg1 [Hk1 _]]] [Ht1 Hd1]]].
  destruct H2 as [g2 [[Hi2 [Hg2 [Hk2 _]]] [Ht2 Hd2]]].
  assert (Hp : photo r1 = photo r2) by exact (NoDup_map_inj gi_id _ _ _ Hgi Hi1 Hi2 Hid).
  assert (Hgg : g1 = g2).
  { apply (NoDup_map_inj g_id _ _ _ Hg Hg1 Hg2). now rewrite Hk1, Hk2, Hp. }
  subst g2. destruct r1, r2. cbn in *. congruence.
Qed.

(** X13: when image ids and gallery ids are unique, [get_person_photos]
    lists each image at most once, however many faces the person has on
    it. *)
Theorem each_photo_listed_once env cat order person w :
  (forall l, Permutation l (order l)) ->
  NoDup (map gi_id (gallery_images cat)) ->
  NoDup (map g_id (galleries cat)) ->
  NoDup (map (fun row => gi_id (photo row))
             (listed_photos (fst (get_person_photos env cat order person w)))).
Proof.
  intros Hperm Hgi Hg. rewrite listed_photos_eq.
  destruct (store_error env); [constructor |].
  apply (Permutation_NoDup (Permutation_map _ (Hperm _))).
  apply NoDup_map_NoDup_ForallPairs; [| apply NoDup_nodup].
  intros r1 r2 H1 H2 Hid. now apply (photo_row_by_id person cat (photo_faces w)).
Qed.

Lemma each_photo_listed_once_witness :
  (forall l : list PhotoRow, Permutation l ((fun l => l) l))
  /\ NoDup (map gi_id (gallery_images sample_catalog))
  /\ NoDup (map g_id (galleries sample_catalog))
  /\ NoDup (map (fun row => gi_id (photo row))
                (listed_photos (fst (get_person_photos healthy sample_catalog
                                       (fun l => l) "alice" sample_world)))).
Proof.
  assert (Hperm : forall l : list PhotoRow, Permutation l ((fun l => l) l))
    by (intros l; apply Permutation_refl).
  assert (Hgi : NoDup (map gi_id (gallery_images sample_catalog))).
  { simpl. repeat constructor; simpl; intuition discriminate. }
  assert (Hg : NoDup (map g_id (galleries sample_catalog))).
  { simpl. repeat constructor; simpl; intuition discriminate. }
  split; [exact Hperm |]. split; [exact Hgi |]. split; [exact Hg |].
  exact (each_photo_listed_once healthy sample_catalog (fun l => l) "alice"
           sample_world Hperm Hgi Hg).
Defined.

(** ** Listings after an update *)

(** The faces of a person on a photo after the unlinking statement are
    those before it, except for the unlinked pair. *)
Lemma face_after_unlink p ph t x q :
  (exists pf', In pf' (map (update_row (unlink_query p ph)) t)
               /\ photo_id pf' = x /\ person_id pf' = Some q)
  <-> (exists pf, In pf t /\ photo_id pf = x /\ person_id pf = Some q)
      /\ ~ (q = p /\ x = ph).
Proof.
  split.
  - intros [pf' [Hin [Hx Hq]]]. apply in_map_iff in Hin.
    destruct Hin as [pf [<- Hin]]. unfold update_row in *.
    cbn [upd_where upd_set unlink_query] in *. fold (linkedb p ph pf) in *.
    destruct (linkedb p ph pf) eqn:E; [discriminate Hq |].
    split; [now exists pf |].
    intros [-> ->]. assert (linkedb p (photo_id pf) pf = true) by now apply linkedb_iff.
    congruence.
  - intros [[pf [Hin [Hx Hq]]] Hne]. exists pf. repeat split; try assumption.
    apply in_map_iff. exists pf. split; [| assumption].
    unfold update_row. cbn [upd_where unlink_query]. fold (linkedb p ph pf).
    destruct (linkedb p ph pf) eqn:E; [| reflexivity].
    apply linkedb_iff in E. destruct E as [Hp Hph]. elim Hne. split; congruence.
Qed.

Lemma appears_on_after_unlink p ph q cat t gi g :
  appears_on q cat (map (update_row (unlink_query p ph)) t) gi g
  <-> appears_on q cat t gi g /\ ~ (q = p /\ gi_id gi = ph).
Proof.
  unfold appears_on. rewrite face_after_unlink. tauto.
Qed.

(** X14: with a reachable store, after [unlink_person_from_photo] the
    person's photo listing is the listing from before without that photo,
    and the listing of every other person has the rows it had. *)
Theorem unlink_removes_photo_from_listing env cat order p ph q w :
  (forall l, Permutation l (order l)) ->
  store_error env = None ->
  (forall row,
     In row (listed_photos
               (fst (get_person_photos env cat order p
                       (snd (unlink_person_from_photo env p ph w)))))
     <-> In row (listed_photos (fst (get_person_photos env cat order p w)))
         /\ gi_id (photo row) <> ph)
  /\ (q <> p ->
      forall row,
        In row (listed_photos
                  (fst (get_person_photos env cat order q
                          (snd (unlink_person_from_photo env p ph w)))))
        <-> In row (listed_photos (fst (get_person_photos env cat order q w)))).
Proof.
  intros Hperm Hs.
  assert (H : forall r row,
             In row (listed_photos
                       (fst (get_person_photos env cat order r
                               (snd (unlink_person_from_photo env p ph w)))))
             <-> In row (listed_photos (fst (get_person_photos env cat order r w)))
                 /\ ~ (r = p /\ gi_id (photo row) = ph)).
  { intros r row. rewrite !listed_photos_eq, photo_faces_unlink, Hs.
    rewrite !(In_order order _ row Hperm), !In_person_photo_rows.
    split.
    - intros [g [Ha Hrest]]. apply appears_on_after_unlink in Ha.
      destruct Ha as [Ha Hne]. split; [now exists g | exact Hne].
    - intros [[g [Ha Hrest]] Hne]. exists g. split; [| exact Hrest].
      apply appears_on_after_unlink. now split. }
  split.
  - intros row. rewrite H. split; intros [Hin Hne]; (split; [exact Hin |]).
    + intros Hph. apply Hne. now split.
    + intros [_ Hph]. now apply Hne.
  - intros Hq row. rewrite H. split; [now intros [Hin _] |].
    intros Hin. split; [exact Hin |]. now intros [Heq _].
Qed.

Lemma unlink_removes_photo_from_listing_witness :
  (forall l : list PhotoRow, Permutation l ((fun l => l) l))
  /\ store_error healthy = None
  /\ listed_photos
       (fst (get_person_photos healthy sample_catalog (fun l => l) "bob"
               (snd (unlink_person_from_photo healthy "bob" "ph2" sample_world))))
     = [].
Proof.
  assert (Hperm : forall l : list PhotoRow, Permutation l ((fun l => l) l))
    by (intros l; apply Permutation_refl).
  split; [exact Hperm |]. split; [reflexivity |].
  pose proof (proj1 (unlink_removes_photo_from_listing healthy sample_catalog
                       (fun l => l) "bob" "ph2" "alice" sample_world Hperm eq_refl))
    as H.
  destruct (listed_photos _) as [|row rest] eqn:E in H |- *; [reflexivity |].
  exfalso. destruct (proj1 (H row) (or_introl eq_refl)) as [Hin Hne].
  vm_compute in Hin. destruct Hin as [<- | []]. now apply Hne.
Defined.

Lemma appears_on_after_update u q cat t gi g :
  set_person_id (upd_set u) = None ->
  appears_on q cat (map (update_row u) t) gi g <-> appears_on q cat t gi g.
Proof.
  intros Hu. unfold appears_on.
  assert (H : (exists pf, In pf (map (update_row u) t)
                          /\ photo_id pf = gi_id gi /\ person_id pf = Some q)
              <-> (exists pf, In pf t /\ photo_id pf = gi_id gi /\ person_id pf = Some q)).
  { split.
    - intros [pf' [Hin [Hx Hq]]]. apply in_map_iff in Hin.
      destruct Hin as [pf [<- Hin]]. exists pf.
      rewrite (proj2 (update_row_keys u pf)) in Hx.
      rewrite (update_row_person u pf Hu) in Hq. auto.
    - intros [pf [Hin [Hx Hq]]]. exists (update_row u pf).
      rewrite (proj2 (update_row_keys u pf)), (update_row_person u pf Hu).
      split; [now apply in_map | auto]. }
  rewrite H. reflexivity.
Qed.

Lemma person_photo_rows_after_update u q cat t :
  set_person_id (upd_set u) = None ->
  Permutation (person_photo_rows q cat (map (update_row u) t)) (person_photo_rows q cat t).
Proof.
  intros Hu. apply NoDup_Permutation; try apply NoDup_nodup.
  intros row. rewrite !In_person_photo_rows.
  split; intros [g [Ha Hrest]]; exists g; (split; [| exact Hrest]);
    now apply (appears_on_after_update u q cat t).
Qed.

(** X15: whatever the collaborators do, verify-on-photo and batch-verify
    change no one's photo listing: it has the same rows after the call as
    before. *)
Theorem verifying_keeps_listings env cat order p ph phs q w :
  (forall l, Permutation l (order l)) ->
  Permutation
    (listed_photos (fst (get_person_photos env cat order q
                           (snd (verify_person_on_photo env p ph w)))))
    (listed_photos (fst (get_person_photos env cat order q w)))
  /\ Permutation
       (listed_photos (fst (get_person_photos env cat order q
                              (snd (batch_verify_person_on_photos env p phs w)))))
       (listed_photos (fst (get_person_photos env cat order q w))).
Proof.
  intros Hperm.
  rewrite !listed_photos_eq, photo_faces_verify, photo_faces_batch.
  destruct (store_error env); [split; constructor |].
  split.
  - eapply Permutation_trans; [apply Permutation_sym, Hperm |].
    eapply Permutation_trans; [| apply Hperm].
    now apply person_photo_rows_after_update.
  - eapply Permutation_trans; [apply Permutation_sym, Hperm |].
    eapply Permutation_trans; [| apply Hperm].
    now apply person_photo_rows_after_update.
Qed.

Lemma verifying_keeps_listings_witness :
  (forall l : list PhotoRow, Permutation l ((fun l => l) l))
  /\ Permutation
       (listed_photos (fst (get_person_photos healthy sample_catalog (fun l => l) "alice"
                              (snd (verify_person_on_photo healthy "alice" "ph1"
                                      sample_world)))))
       (listed_photos (fst (get_person_photos healthy sample_catalog (fun l => l) "alice"
                              sample_world))).
Proof.
  assert (Hperm : forall l : list PhotoRow, Permutation l ((fun l => l) l))
    by (intros l; apply Permutation_refl).
  split; [exact Hperm |].
  exact (proj1 (verifying_keeps_listings healthy sample_catalog (fun l => l)
                  "alice" "ph1" [] "alice" sample_world Hperm)).
Defined.

(** ** The detailed listing *)

Lemma NoDup_map_flat_map {A B C} (f : B -> C) (k : A -> list B) l :
  NoDup l ->
  (forall a, In a l -> NoDup (map f (k a))) ->
  (forall a a' x x',
      In a l -> In a' l -> In x (k a) -> In x' (k a') -> f x = f x' -> a = a') ->
  NoDup (map f (flat_map k l)).
Proof.
  intros Hl. induction Hl as [|a l Ha Hl IH]; intros Hk Hsep; [constructor |].
  cbn [flat_map]. rewrite map_app. apply NoDup_app.
  - apply Hk. now left.
  - apply IH.
    + intros b Hb. apply Hk. now right.
    + intros b b' x x' Hb Hb'. apply Hsep; now right.
  - intros c Hc Hc'.
    apply in_map_iff in Hc. destruct Hc as [x [Hfx Hx]].
    apply in_map_iff in Hc'. destruct Hc' as [x' [Hfx' Hx']].
    apply in_flat_map in Hx'. destruct Hx' as [a' [Ha' Hx']].
    assert (a = a').
    { apply (Hsep a a' x x'); try assumption; [now left | now right | congruence]. }
    subst a'. contradiction.
Qed.

Lemma NoDup_map_filter {A B} (f : A -> B) (keep : A -> bool) l :
  NoDup (map f l) -> NoDup (map f (filter keep l)).
Proof.
  induction l as [|a l IH]; simpl; [trivial |].
  intros H. inversion H as [|? ? Ha Hl]; subst.
  destruct (keep a); [| now apply IH].
  simpl. constructor; [| now apply IH].
  intros Hin. apply Ha. apply in_map_iff in Hin. destruct Hin as [x [Hx Hin]].
  apply filter_In in Hin. rewrite <- Hx. apply in_map. tauto.
Qed.

(** A unique key selects at most one row. *)
Lemma at_most_one_gallery gs x :
  NoDup (map g_id gs) ->
  length (filter (fun g => String.eqb (g_id g) x) gs) <= 1.
Proof.
  induction gs as [|g gs IH]; simpl; [lia |].
  intros H. inversion H as [|? ? Hg Hgs]; subst.
  destruct (String.eqb (g_id g) x) eqn:E; [| now apply IH].
  apply String.eqb_eq in E. simpl.
  destruct (filter _ gs) as [|g' rest] eqn:F; [simpl; lia |].
  exfalso. apply Hg.
  assert (Hin : In g' (filter (fun g0 => String.eqb (g_id g0) x) gs))
    by (rewrite F; now left).
  apply filter_In in Hin. destruct Hin as [Hin Hid]. apply String.eqb_eq in Hid.
  rewrite E, <- Hid. now apply in_map.
Qed.

(** With unique keys, no face record occurs twice in the join. *)
Lemma from_join_faces_once cat faces :
  unique_keys cat faces ->
  NoDup (map joined_face_id (from_join cat faces)).
Proof.
  intros [Hgi [Hg Hf]]. unfold from_join.
  apply NoDup_map_flat_map.
  - exact (NoDup_map_inv _ _ Hgi).
  - intros gi Hin. apply NoDup_map_flat_map.
    + exact (NoDup_map_inv _ _ Hf).
    + intros pf Hpf. destruct (String.eqb (photo_id pf) (gi_id gi)); [| constructor].
      pose proof (at_most_one_gallery (galleries cat) (gallery_id gi) Hg) as Hle.
      destruct (filter _ (galleries cat)) as [|g1 [|g2 rest]]; simpl in *.
      * constructor.
      * repeat constructor. intros [].
      * lia.
    + intros pf pf' x x' Hpf Hpf' Hx Hx' Hid.
      apply (NoDup_map_inj face_id faces pf pf' Hf Hpf Hpf').
      destruct (String.eqb (photo_id pf) (gi_id gi)); [| destruct Hx].
      destruct (String.eqb (photo_id pf') (gi_id gi)); [| destruct Hx'].
      apply in_map_iff in Hx, Hx'.
      destruct Hx as [g1 [<- _]], Hx' as [g2 [<- _]]. exact Hid.
  - intros gi gi' x x' Hin Hin' Hx Hx' Hid.
    apply (NoDup_map_inj gi_id _ gi gi' Hgi Hin Hin').
    apply in_flat_map in Hx, Hx'.
    destruct Hx as [pf [Hpf Hx]], Hx' as [pf' [Hpf' Hx']].
    destruct (String.eqb (photo_id pf) (gi_id gi)) eqn:E; [| destruct Hx].
    destruct (String.eqb (photo_id pf') (gi_id gi')) eqn:E'; [| destruct Hx'].
    apply in_map_iff in Hx, Hx'.
    destruct Hx as [g1 [<- _]], Hx' as [g2 [<- _]]. unfold joined_face_id in Hid.
    cbn [fst snd] in Hid.
    assert (pf = pf') by exact (NoDup_map_inj face_id faces pf pf' Hf Hpf Hpf' Hid).
    subst pf'. apply String.eqb_eq in E, E'. congruence.
Qed.

Lemma detail_face_ids loads order person cat faces :
  map pd_faceId (map (photo_detail loads) (order (person_detail_rows person cat faces)))
  = map dr_face_id (order (person_detail_rows person cat faces)).
Proof. rewrite map_map. reflexivity. Qed.

Lemma detail_rows_face_ids person cat faces :
  map dr_face_id (person_detail_rows person cat faces)
  = map joined_face_id (person_faces_join person cat faces).
Proof.
  unfold person_detail_rows. rewrite map_map. apply map_ext.
  intros [[gi pf] g]. reflexivity.
Qed.

(** X16: with a reachable store and unique keys, whatever [json.loads]
    does, [get_person_photos_with_details] returns success with exactly one
    entry for each face record of the person whose image and gallery exist:
    no face id occurs twice, and a face id occurs exactly when there is
    such a record. *)
Theorem details_one_entry_per_face env cat order loads person w :
  (forall l, Permutation l (order l)) ->
  store_error env = None ->
  unique_keys cat (photo_faces w) ->
  exists data,
    get_person_photos_with_details env cat order loads person w
    = (Return (mkDetailsResponse true data), w)
    /\ NoDup (map pd_faceId data)
    /\ forall fid,
         In fid (map pd_faceId data) <->
         exists gi pf g,
           In gi (gallery_images cat) /\ In pf (photo_faces w) /\ In g (galleries cat)
           /\ photo_id pf = gi_id gi /\ g_id g = gallery_id gi
           /\ person_id pf = Some person /\ face_id pf = fid.
Proof.
  intros Hperm Hs Hkeys.
  exists (map (photo_detail loads)
              (order (person_detail_rows person cat (photo_faces w)))).
  rewrite get_person_photos_with_details_eq, Hs. split; [reflexivity |].
  rewrite detail_face_ids. split.
  - apply (Permutation_NoDup (Permutation_map _ (Hperm _))).
    rewrite detail_rows_face_ids. unfold person_faces_join.
    apply NoDup_map_filter. now apply from_join_faces_once.
  - intros fid. rewrite in_map_iff. split.
    + intros [row [Hfid Hin]]. apply (proj1 (In_order order _ row Hperm)) in Hin.
      apply In_person_detail_rows in Hin.
      destruct Hin as [gi [pf [g [Hin [Hp Hrow]]]]]. subst row.
      apply In_from_join in Hin. destruct Hin as [Hgi [Hpf [Hg [Hph Hid]]]].
      exists gi, pf, g. cbn in Hfid. auto 10.
    + intros [gi [pf [g [Hgi [Hpf [Hg [Hph [Hid [Hp Hfid]]]]]]]]].
      exists (select_detail cat (photo_faces w) (gi, pf, g)). split; [exact Hfid |].
      apply (proj2 (In_order order _ _ Hperm)). apply In_person_detail_rows.
      exists gi, pf, g. repeat split; try assumption.
      apply In_from_join. auto.
Qed.

Lemma details_one_entry_per_face_witness :
  (forall l : list DetailRow, Permutation l ((fun l => l) l))
  /\ store_error healthy = None
  /\ unique_keys sample_catalog (photo_faces sample_world)
  /\ exists data,
       get_person_photos_with_details healthy sample_catalog (fun l => l) no_json
                                      "bob" sample_world
       = (Return (mkDetailsResponse true data), sample_world)
       /\ NoDup (map pd_faceId data).
Proof.
  assert (Hperm : forall l : list DetailRow, Permutation l ((fun l => l) l))
    by (intros l; apply Permutation_refl).
  assert (Hkeys : unique_keys sample_catalog (photo_faces sample_world)).
  { unfold unique_keys. simpl.
    repeat split; repeat constructor; simpl; intuition discriminate. }
  split; [exact Hperm |]. split; [reflexivity |]. split; [exact Hkeys |].
  destruct (details_one_entry_per_face healthy sample_catalog (fun l => l) no_json
              "bob" sample_world Hperm eq_refl Hkeys) as [data [H1 [H2 _]]].
  exists data. split; assumption.
Defined.

Lemma str_or_nonempty x d : d <> "" -> str_or x d <> "".
Proof.
  intros Hd. unfold str_or. destruct x as [s|]; [| exact Hd].
  destruct (String.eqb s "") eqn:E; [exact Hd |].
  now apply String.eqb_neq in E.
Qed.

Lemma float_if_truthy_nonzero c q : float_if_truthy c = Some q -> ~ (q == 0)%Q.
Proof.
  unfold float_if_truthy. destruct c as [x|]; [| discriminate].
  destruct (Qeq_bool x 0) eqn:E; [discriminate |].
  intros H. inversion H; subst. intros Hq. apply Qeq_bool_iff in Hq. congruence.
Qed.

Lemma face_count_positive faces gi pf :
  In pf faces -> photo_id pf = gi_id gi -> 1 <= face_count faces gi.
Proof.
  intros Hin Hph. unfold face_count.
  assert (H : In pf (filter (fun f => String.eqb (photo_id f) (gi_id gi)) faces)).
  { apply filter_In. split; [assumption | now apply String.eqb_eq]. }
  destruct (filter _ faces); [destruct H | simpl; lia].
Qed.

(** X17: every entry of the detailed listing has a non-empty [filename]
    and [sort_order] (a missing or empty one is replaced by "unknown" and
    "filename"), a [confidence] that is null or not zero (a stored 0 is
    reported as null), and a [faceCount] of at least 1. *)
Theorem detail_entries_are_filled env cat order loads person w :
  (forall l, Permutation l (order l)) ->
  Forall detail_filled
         (listed_details
            (fst (get_person_photos_with_details env cat order loads person w))).
Proof.
  intros Hperm. rewrite listed_details_eq.
  destruct (store_error env); [constructor |].
  apply Forall_forall. intros d Hd. apply in_map_iff in Hd.
  destruct Hd as [row [<- Hin]]. apply (proj1 (In_order order _ row Hperm)) in Hin.
  apply In_person_detail_rows in Hin.
  destruct Hin as [gi [pf [g [Hin [_ ->]]]]].
  apply In_from_join in Hin. destruct Hin as [_ [Hpf [_ [Hph _]]]].
  unfold detail_filled, photo_detail, select_detail. cbn.
  repeat split.
  - apply str_or_nonempty. discriminate.
  - apply str_or_nonempty. discriminate.
  - intros c Hc. exact (float_if_truthy_nonzero _ _ Hc).
  - now apply (face_count_positive _ gi pf).
Qed.

Lemma detail_entries_are_filled_witness :
  (forall l : list DetailRow, Permutation l ((fun l => l) l))
  /\ Forall detail_filled
            (listed_details
               (fst (get_person_photos_with_details healthy sample_catalog (fun l => l)
                       no_json "bob" sample_world))).
Proof.
  assert (Hperm : forall l : list DetailRow, Permutation l ((fun l => l) l))
    by (intros l; apply Permutation_refl).
  split; [exact Hperm |].
  exact (detail_entries_are_filled healthy sample_catalog (fun l => l) no_json
           "bob" sample_world Hperm).
Defined.

(** X18: the two listings of a person show the same photos: an image id
    occurs in the detailed listing exactly when it occurs in the plain
    one. *)
Theorem both_listings_show_same_photos env cat order_p order_d loads person w :
  (forall l, Permutation l (order_p l)) ->
  (forall l, Permutation l (order_d l)) ->
  forall id,
    In id (map pd_id
               (listed_details
                  (fst (get_person_photos_with_details env cat order_d loads person w))))
    <-> In id (map (fun row => gi_id (photo row))
                   (listed_photos (fst (get_person_photos env cat order_p person w)))).
Proof.
  intros Hp Hd id. rewrite listed_details_eq, listed_photos_eq.
  destruct (store_error env); [reflexivity |].
  rewrite !in_map_iff. split.
  - intros [d [Hid Hin]]. apply in_map_iff in Hin. destruct Hin as [row [<- Hin]].
    apply (proj1 (In_order order_d _ row Hd)) in Hin. apply In_person_detail_rows in Hin.
    destruct Hin as [gi [pf [g [Hin [Hperson ->]]]]]. cbn in Hid.
    exists (select_photo (gi, pf, g)). split; [exact Hid |].
    apply (proj2 (In_order order_p _ _ Hp)). unfold person_photo_rows.
    apply nodup_In. apply in_map. now apply In_person_faces_join.
  - intros [row [Hid Hin]]. apply (proj1 (In_order order_p _ row Hp)) in Hin.
    unfold person_photo_rows in Hin. apply nodup_In in Hin.
    apply in_map_iff in Hin. destruct Hin as [[[gi pf] g] [<- Hin]].
    exists (photo_detail loads (select_detail cat (photo_faces w) (gi, pf, g))).
    split; [exact Hid |]. apply in_map. apply (proj2 (In_order order_d _ _ Hd)).
    apply In_person_detail_rows. exists gi, pf, g.
    apply In_person_faces_join in Hin. destruct Hin. now repeat split.
Qed.

Lemma both_listings_show_same_photos_witness :
  (forall l : list PhotoRow, Permutation l ((fun l => l) l))
  /\ (forall l : list DetailRow, Permutation l ((fun l => l) l))
  /\ (In "ph2" (map pd_id
                    (listed_details
                       (fst (get_person_photos_with_details healthy sample_catalog
                               (fun l => l) no_json "bob" sample_world))))
      <-> In "ph2" (map (fun row => gi_id (photo row))
                        (listed_photos (fst (get_person_photos healthy sample_catalog
                                               (fun l => l) "bob" sample_world))))).
Proof.
  assert (Hp : forall l : list PhotoRow, Permutation l ((fun l => l) l))
    by (intros l; apply Permutation_refl).
  assert (Hd : forall l : list DetailRow, Permutation l ((fun l => l) l))
    by (intros l; apply Permutation_refl).
  split; [exact Hp |]. split; [exact Hd |].
  exact (both_listings_show_same_photos healthy sample_catalog (fun l => l)
           (fun l => l) no_json "bob" sample_world Hp Hd "ph2").
Defined.

Lemma no_member_nil {A} (l : list A) : (forall x, ~ In x l) -> l = [].
Proof. destruct l as [|a l]; [reflexivity |]. intros H. elim (H a). now left. Qed.

(** X19: with a reachable store, a person without any face record, known
    or not, gets two successful empty listings, [count] 0 included, not a
    404. *)
Theorem person_without_faces_has_empty_listings
        env cat order_p order_d loads person w :
  (forall l, Permutation l (order_p l)) ->
  (forall l, Permutation l (order_d l)) ->
  store_error env = None ->
  (forall pf, In pf (photo_faces w) -> person_id pf <> Some person) ->
  get_person_photos env cat order_p person w
  = (Return (mkPhotosResponse true [] 0), w)
  /\ get_person_photos_with_details env cat order_d loads person w
     = (Return (mkDetailsResponse true []), w).
Proof.
  intros Hp Hd Hs Hno.
  assert (Hj : person_faces_join person cat (photo_faces w) = []).
  { apply no_member_nil. intros [[gi pf] g] Hin.
    apply In_person_faces_join in Hin. destruct Hin as [Hin Hperson].
    apply In_from_join in Hin. destruct Hin as [_ [Hpf _]]. now apply (Hno pf). }
  rewrite get_person_photos_eq, get_person_photos_with_details_eq, Hs.
  unfold person_photo_rows, person_detail_rows. rewrite Hj. cbn [map nodup].
  rewrite (Permutation_nil (Hp [])), (Permutation_nil (Hd [])). now split.
Qed.

Lemma person_without_faces_has_empty_listings_witness :
  (forall l : list PhotoRow, Permutation l ((fun l => l) l))
  /\ (forall l : list DetailRow, Permutation l ((fun l => l) l))
  /\ store_error healthy = None
  /\ (forall pf, In pf (photo_faces sample_world) -> person_id pf <> Some "carol")
  /\ get_person_photos healthy sample_catalog (fun l => l) "carol" sample_world
     = (Return (mkPhotosResponse true [] 0), sample_world).
Proof.
  assert (Hp : forall l : list PhotoRow, Permutation l ((fun l => l) l))
    by (intros l; apply Permutation_refl).
  assert (Hd : forall l : list DetailRow, Permutation l ((fun l => l) l))
    by (intros l; apply Permutation_refl).
  assert (Hno : forall pf, In pf (photo_faces sample_world) ->
                           person_id pf <> Some "carol").
  { intros pf Hin. simpl in Hin. destruct Hin as [<- | [<- | [<- | []]]]; discriminate. }
  split; [exact Hp |]. split; [exact Hd |]. split; [reflexivity |].
  split; [exact Hno |].
  exact (proj1 (person_without_faces_has_empty_listings healthy sample_catalog
                  (fun l => l) (fun l => l) no_json "carol" sample_world
                  Hp Hd eq_refl Hno)).
Defined.

(** * The handlers of the people table *)

Example get_person_by_id_run :
  get_person_by_id lookup_person "bob" sample_world
  = (Return (mkPerson "bob" "Bob"), sample_world)
  /\ get_person_by_id lookup_person "carol" sample_world
     = (Raise (HTTPException 404 "Person carol not found"), sample_world).
Proof. split; reflexivity. Qed.

(** A store that returns a row without an id: building the log line raises
    inside the [try] block and the caller gets a 500. *)
Example create_person_without_id_run :
  create_person (fun _ : unit => tt) (fun (_ : unit) w => (Return tt, w))
                (fun _ : unit => Raise (Exception "'id'")) tt sample_world
  = (Raise (HTTPException 500 "'id'"), sample_world).
Proof. reflexivity. Qed.

(** X20: when the store call returns, [get_person_by_id], [update_person]
    and [update_person_avatar] answer 404 "Person {id} not found" exactly
    when it found no person, and otherwise return the person it found
    (the avatar handler wrapped with success); the world is as the store
    call left it. *)
Theorem lookups_answer_404_when_nothing_found
        (PersonRow PersonUpdate Fields : Type)
        (dump : PersonUpdate -> Fields) (avatar : string -> Fields)
        (db_get : string -> M (option PersonRow))
        (db_update : string -> Fields -> M (option PersonRow))
        person data url w :
  (forall found w',
      db_get person w = (Return found, w') ->
      get_person_by_id db_get person w = (found_or_404 person (fun r => r) found, w'))
  /\ (forall found w',
         db_update person (dump data) w = (Return found, w') ->
         update_person dump db_update person data w
         = (found_or_404 person (fun r => r) found, w'))
  /\ (forall found w',
         db_update person (avatar url) w = (Return found, w') ->
         update_person_avatar avatar db_update person url w
         = (found_or_404 person (fun r => (true, r)) found, w')).
Proof.
  unfold get_person_by_id, update_person, update_person_avatar, try_except, bind.
  repeat split; intros found w' ->; destruct found; reflexivity.
Qed.

Lemma lookups_answer_404_when_nothing_found_witness :
  lookup_person "carol" sample_world = (Return None, sample_world)
  /\ get_person_by_id lookup_person "carol" sample_world
     = (Raise (HTTPException 404 "Person carol not found"), sample_world).
Proof.
  assert (H : lookup_person "carol" sample_world = (Return None, sample_world))
    by reflexivity.
  split; [exact H |].
  exact (proj1 (lookups_answer_404_when_nothing_found Person unit unit
                  (fun _ => tt) (fun _ => tt) lookup_person
                  (fun p _ => lookup_person p) "carol" tt "" sample_world)
           None sample_world H).
Defined.

Lemma try_except_reraise {A} (body : M A) w :
  http_only (fst (try_except body reraise_http_else_500 w)).
Proof.
  unfold try_except, reraise_http_else_500, raise.
  destruct (body w) as [[a | [c d | m]] w']; cbn; auto.
Qed.

(** X21: whatever the store methods do, also when they raise an
    [HTTPException] of their own, the handlers of the people table never
    let a bare exception out; [get_all_people], [create_person] and
    [create_person_from_cluster], which have no [except HTTPException]
    clause, fail with status 500 only. *)
Theorem people_handlers_raise_http_only
        (PersonRow PersonCreate PersonUpdate Fields ClusterFace : Type)
        (dump : PersonCreate -> Fields) (dump_set : PersonUpdate -> Fields)
        (avatar : string -> Fields)
        (db_all : bool -> M (list PersonRow))
        (db_get : string -> M (option PersonRow))
        (db_create : Fields -> M PersonRow)
        (db_update : string -> Fields -> M (option PersonRow))
        (db_cluster : string -> list ClusterFace -> M PersonRow)
        (id_of : PersonRow -> outcome string)
        stats person created updated url name faces w :
  ok_or_500 (fst (get_all_people db_all stats w))
  /\ ok_or_500 (fst (create_person dump db_create id_of created w))
  /\ ok_or_500 (fst (create_person_from_cluster db_cluster id_of name faces w))
  /\ http_only (fst (get_person_by_id db_get person w))
  /\ http_only (fst (update_person dump_set db_update person updated w))
  /\ http_only (fst (update_person_avatar avatar db_update person url w)).
Proof.
  repeat split;
    first [ apply try_except_all_as_500 | apply try_except_reraise ].
Qed.
